(** * Toon Smart Meter sensor platform: a shallow embedding of
    [custom_components/toon_smartmeter/sensor.py] and the properties of its
    polling cache and of its field extraction.

    Layout: the Python objects the module handles (JSON values, floats,
    exceptions), the gateway client [ToonSmartMeterData], the sensor entity
    [ToonSmartMeterSensor], the helper [safe_get], the platform schema, and
    then the theorems. *)

From Stdlib Require Import ZArith String Ascii List Bool Lia.
From Stdlib Require Import Floats.SpecFloat.
From stdpp Require Import base option list gmap strings pretty.

#[local] Set Warnings "-register-all".
#[local] Open Scope string_scope.
#[local] Open Scope Z_scope.

(** ** Python objects *)

(** Python floats are IEEE-754 binary64 numbers: [spec_float] with a
    53-bit significand and exponents below 1024, rounding to nearest even. *)
Module PyFloat.

Definition prec : Z := 53.
Definition emax : Z := 1024.

Definition t := spec_float.

(** The float nearest to [n / d], with sign [s]. *)
Definition of_ratio (s : bool) (n : N) (d : positive) : t :=
  match n with
  | N0 => S754_zero s
  | Npos p =>
      let '(q, e, l) := SFdiv_core_binary prec emax (Zpos p) 0 (Zpos d) 0 in
      binary_round_aux prec emax s q e l
  end.

(** The float nearest to the integer [z]. *)
Definition of_Z (z : Z) : t := binary_normalize prec emax z 0 false.

(** The float nearest to [m * 10^e], with sign [s]. *)
Definition of_decimal (s : bool) (m : N) (e : Z) : t :=
  match e with
  | Zneg k => of_ratio s m (Pos.pow 10 k)
  | _ => of_ratio s (m * N.pow 10 (Z.to_N e)) 1
  end.

Definition div (x y : t) : t := SFdiv prec emax x y.

(** [n / d] rounded to an integer, ties to the even one. *)
Definition round_half_even (n : N) (d : positive) : N :=
  let q := (n / Npos d)%N in
  let r := (n mod Npos d)%N in
  match (2 * r ?= Npos d)%N with
  | Lt => q
  | Gt => (q + 1)%N
  | Eq => if N.even q then q else (q + 1)%N
  end.

(** [round(x, 1)]: the exact value of [x] is rounded to one decimal
    (ties to even) and the decimal is converted back to the nearest
    float; infinities and NaN are returned as they are. *)
Definition round1 (x : t) : t :=
  match x with
  | S754_finite s m e =>
      match e with
      | Zneg k => of_ratio s (round_half_even (Npos m * 10) (Pos.pow 2 k)) 10
      | _ => x
      end
  | _ => x
  end.

End PyFloat.

(** Parsed JSON documents and the other objects a reading can hold. *)
Inductive pyval : Type :=
| VNone
| VBool (b : bool)
| VInt (z : Z)
| VFloat (f : PyFloat.t)
| VStr (s : string)
| VList (l : list pyval)
| VDict (d : gmap string pyval).

(** The exceptions the modelled code can raise. *)
Inductive exception : Type :=
| KeyError (key : string)
| TypeError
| ValueError
| OverflowError
| AttributeError
| ClientError      (* aiohttp.ClientError: connection refused, DNS failure, ... *)
| TimeoutError     (* asyncio.TimeoutError: the request outlived its time bound *)
| JSONDecodeError  (* the body is not a JSON document *)
| RuntimeError     (* stands for any other subclass of Exception *)
| Invalid          (* voluptuous.Invalid: a configuration is refused *)
| CancelledError.  (* asyncio.CancelledError: a BaseException, not an Exception *)

(** [isinstance(e, Exception)] *)
Definition is_Exception (e : exception) : bool :=
  match e with
  | CancelledError => false
  | _ => true
  end.

(** [isinstance(e, aiohttp.ClientError)] *)
Definition is_ClientError (e : exception) : bool :=
  match e with
  | ClientError => true
  | _ => false
  end.

(** [isinstance(e, asyncio.TimeoutError)] *)
Definition is_TimeoutError (e : exception) : bool :=
  match e with
  | TimeoutError => true
  | _ => false
  end.

Inductive result (A : Type) : Type :=
| Return (a : A)
| Raise (e : exception).
Arguments Return {A} a.
Arguments Raise {A} e.

#[global] Instance result_ret : MRet result := @Return.
#[global] Instance result_bind : MBind result :=
  fun A B f m => match m with Return a => f a | Raise e => Raise e end.
#[global] Instance result_fmap : FMap result :=
  fun A B f m => match m with Return a => Return (f a) | Raise e => Raise e end.

(** [bool(v)] *)
Definition truthy (v : pyval) : bool :=
  match v with
  | VNone => false
  | VBool b => b
  | VInt z => negb (Z.eqb z 0)
  | VFloat f =>
      match f with
      | S754_zero _ => false
      | _ => true
      end
  | VStr s => negb (String.eqb s "")
  | VList l => match l with [] => false | _ => true end
  | VDict d => negb (bool_decide (d = ∅))
  end.

(** [v[key]] for a string key. *)
Definition getitem (v : pyval) (key : string) : result pyval :=
  match v with
  | VDict d =>
      match d !! key with
      | Some x => Return x
      | None => Raise (KeyError key)
      end
  | _ => Raise TypeError
  end.

(** *** Characters and the text of a float *)

Definition code (c : ascii) : N := N_of_ascii c.

Definition is_digit (c : ascii) : bool :=
  ((48 <=? code c) && (code c <=? 57))%N.

Definition digit_value (c : ascii) : N := (code c - 48)%N.

(** C's [isspace] on ASCII: space, and tab to carriage return. *)
Definition Py_ISSPACE (c : ascii) : bool :=
  ((code c =? 32) || ((9 <=? code c) && (code c <=? 13)))%N.

Definition Py_TOLOWER (c : ascii) : ascii :=
  if ((65 <=? code c) && (code c <=? 90))%N
  then ascii_of_N (code c + 32)
  else c.

(** [s.lower()] on ASCII text. *)
Fixpoint lower (s : string) : string :=
  match s with
  | EmptyString => EmptyString
  | String c r => String (Py_TOLOWER c) (lower r)
  end.

Fixpoint span (p : ascii -> bool) (l : list ascii) : list ascii * list ascii :=
  match l with
  | [] => ([], [])
  | c :: r =>
      if p c then let '(a, b) := span p r in (c :: a, b) else ([], l)
  end.

Definition digits_value (ds : list ascii) : N :=
  fold_left (fun acc c => (10 * acc + digit_value c)%N) ds 0%N.

(** Whether [l] starts with the lower-case word [w], letter case ignored;
    the rest of [l] when it does. *)
Fixpoint case_insensitive_match (l w : list ascii) : option (list ascii) :=
  match w with
  | [] => Some l
  | x :: w' =>
      match l with
      | c :: l' =>
          if Ascii.eqb (Py_TOLOWER c) x then case_insensitive_match l' w' else None
      | [] => None
      end
  end.

Definition take_sign (l : list ascii) : bool * list ascii :=
  match l with
  | "-"%char :: r => (true, r)
  | "+"%char :: r => (false, r)
  | _ => (false, l)
  end.

(** Underscores may only separate digits; they are dropped. *)
Fixpoint drop_underscores (prev : option ascii) (l : list ascii) : option (list ascii) :=
  match l with
  | [] =>
      match prev with
      | Some "_"%char => None
      | _ => Some []
      end
  | c :: r =>
      if Ascii.eqb c "_" then
        match prev with
        | Some p => if is_digit p then drop_underscores (Some c) r else None
        | None => None
        end
      else
        match prev with
        | Some "_"%char =>
            if is_digit c then cons c <$> drop_underscores (Some c) r else None
        | _ => cons c <$> drop_underscores (Some c) r
        end
  end.

Definition strip (l : list ascii) : list ascii :=
  let l1 := snd (span Py_ISSPACE l) in
  rev (snd (span Py_ISSPACE (rev l1))).

(** The text of an infinity or a NaN, sign already taken. *)
Definition parse_inf_or_nan (s : bool) (l : list ascii) : option (option PyFloat.t) :=
  match case_insensitive_match l (list_ascii_of_string "inf") with
  | Some r =>
      let r' := match case_insensitive_match r (list_ascii_of_string "inity") with
                | Some r'' => r''
                | None => r
                end in
      Some (match r' with [] => Some (S754_infinity s) | _ => None end)
  | None =>
      match case_insensitive_match l (list_ascii_of_string "nan") with
      | Some r => Some (match r with [] => Some S754_nan | _ => None end)
      | None => None
      end
  end.

(** A decimal literal, sign already taken: digits, an optional point and
    more digits (one digit at least), an optional exponent. *)
Definition parse_decimal (s : bool) (l : list ascii) : option PyFloat.t :=
  let '(ip, r1) := span is_digit l in
  let '(fp, r2) :=
    match r1 with
    | "."%char :: r => span is_digit r
    | _ => ([], r1)
    end in
  match (ip ++ fp)%list with
  | [] => None
  | ds =>
      let m := digits_value ds in
      let frac := Z.of_nat (length fp) in
      match r2 with
      | [] => Some (PyFloat.of_decimal s m (- frac))
      | c :: r =>
          if Ascii.eqb (Py_TOLOWER c) "e" then
            let '(es, r3) := take_sign r in
            let '(ed, r4) := span is_digit r3 in
            match ed, r4 with
            | _ :: _, [] =>
                let e := Z.of_N (digits_value ed) in
                Some (PyFloat.of_decimal s m ((if es then - e else e) - frac))
            | _, _ => None
            end
          else None
      end
  end.

(** *** Text outside ASCII

    A text is kept as its UTF-8 bytes. [float] first rewrites a text that
    is not pure ASCII: every white-space character becomes a space and
    every decimal digit of any script its ASCII digit; any other character
    outside ASCII makes the conversion fail. *)

Definition continuation (c : ascii) : option N :=
  if ((128 <=? code c) && (code c <? 192))%N then Some (code c - 128)%N else None.

(** The code points of UTF-8 bytes. *)
Fixpoint code_points (l : list ascii) : option (list N) :=
  match l with
  | [] => Some []
  | b0 :: r0 =>
      let n0 := code b0 in
      if (n0 <? 128)%N then cons n0 <$> code_points r0
      else if (n0 <? 192)%N then None
      else if (n0 <? 224)%N then
        match r0 with
        | b1 :: r1 =>
            c1 ← continuation b1;
            cons ((n0 - 192) * 64 + c1)%N <$> code_points r1
        | _ => None
        end
      else if (n0 <? 240)%N then
        match r0 with
        | b1 :: b2 :: r2 =>
            c1 ← continuation b1; c2 ← continuation b2;
            cons (((n0 - 224) * 64 + c1) * 64 + c2)%N <$> code_points r2
        | _ => None
        end
      else if (n0 <? 248)%N then
        match r0 with
        | b1 :: b2 :: b3 :: r3 =>
            c1 ← continuation b1; c2 ← continuation b2; c3 ← continuation b3;
            cons ((((n0 - 240) * 64 + c1) * 64 + c2) * 64 + c3)%N <$> code_points r3
        | _ => None
        end
      else None
  end.

Definition between (lo hi n : N) : bool := ((lo <=? n) && (n <=? hi))%N.

(** Python's white-space characters. *)
Definition Py_UNICODE_ISSPACE (n : N) : bool :=
  between 9 13 n || between 28 32 n || (n =? 133)%N || (n =? 160)%N ||
  (n =? 5760)%N || between 8192 8202 n || (n =? 8232)%N || (n =? 8233)%N ||
  (n =? 8239)%N || (n =? 8287)%N || (n =? 12288)%N.

(** The code points of the digit zero of every script with decimal digits
    (Unicode 15), each followed by its digits one to nine. *)
Definition decimal_zeros : list N :=
  [ 48; 1632; 1776; 1984; 2406; 2534; 2662; 2790; 2918; 3046; 3174; 3302;
    3430; 3558; 3664; 3792; 3872; 4160; 4240; 6112; 6160; 6470; 6608; 6784;
    6800; 6992; 7088; 7232; 7248; 42528; 43216; 43264; 43472; 43504; 43600;
    44016; 65296; 66720; 68912; 69734; 69872; 69942; 70096; 70384; 70736;
    70864; 71248; 71360; 71472; 71904; 72016; 72784; 73040; 73120; 73552;
    92768; 92864; 93008; 120782; 120792; 120802; 120812; 120822; 123200;
    123632; 124144; 125264; 130032 ]%N.

Definition Py_UNICODE_TODECIMAL (n : N) : option N :=
  (λ z, n - z)%N <$> List.find (λ z, between z (z + 9) n) decimal_zeros.

Definition to_ascii (n : N) : option ascii :=
  if (n <? 127)%N then Some (ascii_of_N n)
  else if Py_UNICODE_ISSPACE n then Some " "%char
  else (λ d, ascii_of_N (48 + d)) <$> Py_UNICODE_TODECIMAL n.

(** A pure ASCII text is taken as it is. *)
Definition TransformDecimalAndSpaceToASCII (l : list ascii) : option (list ascii) :=
  if forallb (λ c, code c <? 128)%N l then Some l
  else code_points l ≫= mapM to_ascii.

(** [float(s)] for a string. *)
Definition float_of_string (s : string) : result PyFloat.t :=
  match TransformDecimalAndSpaceToASCII (list_ascii_of_string s)
          ≫= drop_underscores None with
  | None => Raise ValueError
  | Some l =>
      let '(sg, body) := take_sign (strip l) in
      match parse_inf_or_nan sg body with
      | Some (Some f) => Return f
      | Some None => Raise ValueError
      | None =>
          match parse_decimal sg body with
          | Some f => Return f
          | None => Raise ValueError
          end
      end
  end.

(** [float(v)] *)
Definition py_float (v : pyval) : result PyFloat.t :=
  match v with
  | VFloat f => Return f
  | VInt z =>
      match PyFloat.of_Z z with
      | S754_infinity _ => Raise OverflowError
      | f => Return f
      end
  | VBool b => Return (PyFloat.of_Z (if b then 1 else 0))
  | VStr s => float_of_string s
  | VNone | VList _ | VDict _ => Raise TypeError
  end.

Definition f1000 : PyFloat.t := PyFloat.of_Z 1000.
Definition f60 : PyFloat.t := PyFloat.of_Z 60.


(** ** Constants of the module *)

(** [BASE_URL.format(host, port)] *)
Definition BASE_URL (host : string) (port : Z) : string :=
  "http://" ++ host ++ ":" ++ pretty port ++ "/hdrv_zwave?action=getDevices.json".

(** Times and durations are counted in microseconds, the resolution of
    [datetime] and [timedelta]. *)
Definition timedelta (seconds : Z) : Z := seconds * 1000000.

Definition MIN_TIME_BETWEEN_UPDATES : Z := timedelta 10.

Definition SENSOR_PREFIX : string := "Toon ".

Definition SENSOR_LIST : gset string :=
  {[ "gasused"; "gasusedcnt"; "elecusageflowpulse"; "elecusagecntpulse";
     "elecusageflowlow"; "elecusageflowhigh"; "elecprodflowlow";
     "elecprodflowhigh"; "elecusagecntlow"; "elecusagecnthigh";
     "elecprodcntlow"; "elecprodcnthigh"; "elecsolar"; "elecsolarcnt";
     "heat"; "waterflow"; "waterusedcnt" ]}.

(** The host platform's constants the descriptions refer to. *)
Inductive device_class := DEVICE_CLASS_ENERGY | DEVICE_CLASS_GAS | DEVICE_CLASS_POWER.
Inductive unit_of_measurement :=
| ENERGY_KILO_WATT_HOUR | POWER_WATT | VOLUME_CUBIC_METERS | unit_text (s : string).
Inductive state_class := STATE_CLASS_TOTAL_INCREASING.

Record SensorEntityDescription := {
  key : string;
  name : string;
  icon : string;
  device_class_of : option device_class;
  native_unit_of_measurement : option unit_of_measurement;
  state_class_of : option state_class
}.

Definition description k n i dc u sc : SensorEntityDescription :=
  {| key := k; name := n; icon := i; device_class_of := dc;
     native_unit_of_measurement := u; state_class_of := sc |}.

Definition SENSOR_TYPES : list SensorEntityDescription :=
  [ description "gasused" "Gas Used Last Hour" "mdi:gas-cylinder"
      (Some DEVICE_CLASS_GAS) (Some VOLUME_CUBIC_METERS) (Some STATE_CLASS_TOTAL_INCREASING);
    description "gasusedcnt" "Gas Used Cnt" "mdi:gas-cylinder"
      (Some DEVICE_CLASS_GAS) (Some VOLUME_CUBIC_METERS) (Some STATE_CLASS_TOTAL_INCREASING);
    description "elecusageflowpulse" "Power Use" "mdi:flash"
      (Some DEVICE_CLASS_POWER) (Some POWER_WATT) None;
    description "elecusageflowlow" "P1 Power Use Low" "mdi:flash"
      (Some DEVICE_CLASS_POWER) (Some POWER_WATT) None;
    description "elecusageflowhigh" "P1 Power Use High" "mdi:flash"
      (Some DEVICE_CLASS_POWER) (Some POWER_WATT) None;
    description "elecprodflowlow" "P1 Power Prod Low" "mdi:flash"
      (Some DEVICE_CLASS_POWER) (Some POWER_WATT) None;
    description "elecprodflowhigh" "P1 Power Prod High" "mdi:flash"
      (Some DEVICE_CLASS_POWER) (Some POWER_WATT) None;
    description "elecusagecntpulse" "P1 Power Use Cnt" "mdi:flash"
      (Some DEVICE_CLASS_ENERGY) (Some ENERGY_KILO_WATT_HOUR) (Some STATE_CLASS_TOTAL_INCREASING);
    description "elecusagecntlow" "P1 Power Use Cnt Low" "mdi:flash"
      (Some DEVICE_CLASS_ENERGY) (Some ENERGY_KILO_WATT_HOUR) (Some STATE_CLASS_TOTAL_INCREASING);
    description "elecusagecnthigh" "P1 Power Use Cnt High" "mdi:flash"
      (Some DEVICE_CLASS_ENERGY) (Some ENERGY_KILO_WATT_HOUR) (Some STATE_CLASS_TOTAL_INCREASING);
    description "elecprodcntlow" "P1 Power Prod Cnt Low" "mdi:flash"
      (Some DEVICE_CLASS_ENERGY) (Some ENERGY_KILO_WATT_HOUR) (Some STATE_CLASS_TOTAL_INCREASING);
    description "elecprodcnthigh" "P1 Power Prod Cnt High" "mdi:flash"
      (Some DEVICE_CLASS_ENERGY) (Some ENERGY_KILO_WATT_HOUR) (Some STATE_CLASS_TOTAL_INCREASING);
    description "elecsolar" "P1 Power Solar" "mdi:flash"
      (Some DEVICE_CLASS_POWER) (Some POWER_WATT) None;
    description "elecsolarcnt" "P1 Power Solar Cnt" "mdi:flash"
      (Some DEVICE_CLASS_ENERGY) (Some ENERGY_KILO_WATT_HOUR) (Some STATE_CLASS_TOTAL_INCREASING);
    description "heat" "P1 Heat" "mdi:fire" None None None;
    description "waterflow" "Actual water usage" "mdi:water-pump"
      None (Some (unit_text "L/min")) None;
    description "waterusedcnt" "Water used" "mdi:water"
      None (Some VOLUME_CUBIC_METERS) (Some STATE_CLASS_TOTAL_INCREASING) ].


(** ** The network *)

(** The injected HTTP session: the URLs it was asked to GET, latest first. *)
Record ClientSession := { requests : list string }.

Definition get (url : string) (session : ClientSession) : ClientSession :=
  {| requests := url :: requests session |}.

(** What one request meets: [session.get] raises or answers, and the
    answer's [json()] raises or yields the parsed document. *)
Definition network : Type := result (result pyval).

(** Modelled from the spec: the test of the [Throttle] decorator, which
    belongs to the host platform's [util] package and is not among the
    sources. A call is inside the interval when the method ran before and
    less than [min_time] has elapsed since that run. *)
Definition throttled (min_time : Z) (last : option Z) (now : Z) : bool :=
  match last with
  | None => false
  | Some t => now - t <? min_time
  end.

(** Modelled from the spec: the [Throttle] decorator. The decorated method
    runs when it never ran before or when at least [min_time] has elapsed
    since it last ran, and the time of that run is noted; a call inside the
    interval returns at once, without running the method. [last] reads and
    [stamp] writes the time of the last run, kept with the object the
    method belongs to. *)
Definition Throttle {S : Type} (min_time : Z) (last : S -> option Z)
    (stamp : Z -> S -> S) (method : S -> S * result unit)
    (now : Z) (self : S) : S * result unit :=
  if throttled min_time (last self) now then (self, Return tt)
  else method (stamp now self).

(** ** The gateway client *)
Module ToonSmartMeterData.

Record t := {
  _session : ClientSession;
  _url : string;
  _data : pyval;
  _throttle : option Z
}.

Definition __init__ (session : ClientSession) (host : string) (port : Z) : t :=
  {| _session := session; _url := BASE_URL host port;
     _data := VNone; _throttle := None |}.

Definition set_data (v : pyval) (self : t) : t :=
  {| _session := _session self; _url := _url self;
     _data := v; _throttle := _throttle self |}.

Definition set_throttle (now : Z) (self : t) : t :=
  {| _session := _session self; _url := _url self;
     _data := _data self; _throttle := Some now |}.

Definition send (self : t) : t :=
  {| _session := get (_url self) (_session self); _url := _url self;
     _data := _data self; _throttle := _throttle self |}.

(** The body of [async_update]: one GET, then the two [try] blocks.
    Log calls are left out. *)
Definition download (net : network) (self : t) : t * result unit :=
  let self := send self in
  match net with
  | Raise e =>
      if is_ClientError e then (self, Return tt)
      else if is_TimeoutError e then (self, Return tt)
      else if is_Exception e then (set_data VNone self, Return tt)
      else (self, Raise e)
  | Return response =>
      match response with
      | Return v => (set_data v self, Return tt)
      | Raise e =>
          if is_Exception e then (set_data VNone self, Return tt)
          else (self, Raise e)
      end
  end.

(** [@Throttle(MIN_TIME_BETWEEN_UPDATES) async def async_update(self)] *)
Definition async_update (now : Z) (net : network) (self : t) : t * result unit :=
  Throttle MIN_TIME_BETWEEN_UPDATES _throttle set_throttle (download net) now self.

Definition latest_data (self : t) : pyval :=
  if truthy (_data self) then _data self else VNone.

End ToonSmartMeterData.

(** ** The sensor entity *)
Module ToonSmartMeterSensor.

Record t := {
  entity_description : SensorEntityDescription;
  _state : pyval;
  _type : string;
  _attr_icon : string;
  _attr_name : string;
  _attr_state_class : option state_class;
  _attr_native_unit_of_measurement : option unit_of_measurement;
  _attr_device_class : option device_class;
  _attr_unique_id : string;
  _discovery : bool;
  _dev_id : gmap string pyval
}.

(** The gateway client [data] every sensor is built with is the one
    shared object; it is passed to [async_update] and handed back. *)
Definition __init__ (d : SensorEntityDescription) : t :=
  {| entity_description := d;
     _state := VNone;
     _type := key d;
     _attr_icon := icon d;
     _attr_name := SENSOR_PREFIX ++ name d;
     _attr_state_class := state_class_of d;
     _attr_native_unit_of_measurement := native_unit_of_measurement d;
     _attr_device_class := device_class_of d;
     _attr_unique_id := SENSOR_PREFIX ++ "_" ++ key d;
     _discovery := false;
     _dev_id := ∅ |}.

Definition set_state (v : pyval) (self : t) : t :=
  {| entity_description := entity_description self;
     _state := v;
     _type := _type self;
     _attr_icon := _attr_icon self;
     _attr_name := _attr_name self;
     _attr_state_class := _attr_state_class self;
     _attr_native_unit_of_measurement := _attr_native_unit_of_measurement self;
     _attr_device_class := _attr_device_class self;
     _attr_unique_id := _attr_unique_id self;
     _discovery := _discovery self;
     _dev_id := _dev_id self |}.

(** [value.lower()] *)
Definition str_lower (v : pyval) : result string :=
  match v with
  | VStr s => Return (lower s)
  | _ => Raise AttributeError
  end.

(** [0 @ property]: neither [int] nor the class [property] defines a
    matrix product. *)
Definition matmul_0_property : result pyval := Raise TypeError.

Definition _validateOutput (value : pyval) : pyval :=
  let attempt : result pyval :=
    l ← str_lower value;
    if String.eqb l "nan" then matmul_0_property else Return value in
  match attempt with
  | Return v => v
  | Raise _ => value
  end.

Definition state (self : t) : pyval := _state self.

Definition p1_device : string := "dev_15".
Definition water_device : string := "dev_27".
Definition solar_device : string := "dev_20.export".

(** [float(energy[device][field]) / 1000] *)
Definition milli (energy : pyval) (device field : string) : result pyval :=
  d ← getitem energy device;
  x ← getitem d field;
  f ← py_float x;
  Return (VFloat (PyFloat.div f f1000)).

(** [energy[device][field]] *)
Definition plain (energy : pyval) (device field : string) : result pyval :=
  d ← getitem energy device;
  getitem d field.

(** [round((float(energy[device][field]) / 60), 1)] *)
Definition per_minute (energy : pyval) (device field : string) : result pyval :=
  d ← getitem energy device;
  x ← getitem d field;
  f ← py_float x;
  Return (VFloat (PyFloat.round1 (PyFloat.div f f60))).

(** The chain of [if]/[elif] on [self._type]: the value to assign to
    [self._state], [None] when no branch is taken. *)
Definition compute (type : string) (energy : pyval) : result (option pyval) :=
  if String.eqb type "gasused" then
    Some <$> milli energy (p1_device ++ ".1") "CurrentGasFlow"
  else if String.eqb type "gasusedcnt" then
    Some <$> milli energy (p1_device ++ ".1") "CurrentGasQuantity"
  else if String.eqb type "elecusageflowpulse" then
    Some <$> plain energy (p1_device ++ ".2") "CurrentElectricityFlow"
  else if String.eqb type "elecusagecntpulse" then
    Some <$> milli energy (p1_device ++ ".2") "CurrentElectricityQuantity"
  else if String.eqb type "elecusageflowlow" then
    Some <$> plain energy (p1_device ++ ".6") "CurrentElectricityFlow"
  else if String.eqb type "elecusagecntlow" then
    Some <$> milli energy (p1_device ++ ".6") "CurrentElectricityQuantity"
  else if String.eqb type "elecusageflowhigh" then
    Some <$> plain energy (p1_device ++ ".4") "CurrentElectricityFlow"
  else if String.eqb type "elecusagecnthigh" then
    Some <$> milli energy (p1_device ++ ".4") "CurrentElectricityQuantity"
  else if String.eqb type "elecprodflowlow" then
    Some <$> plain energy (p1_device ++ ".7") "CurrentElectricityFlow"
  else if String.eqb type "elecprodcntlow" then
    Some <$> milli energy (p1_device ++ ".7") "CurrentElectricityQuantity"
  else if String.eqb type "elecprodflowhigh" then
    Some <$> plain energy (p1_device ++ ".5") "CurrentElectricityFlow"
  else if String.eqb type "elecprodcnthigh" then
    Some <$> milli energy (p1_device ++ ".5") "CurrentElectricityQuantity"
  else if String.eqb type "elecsolar" then
    Some <$> plain energy solar_device "CurrentElectricityFlow"
  else if String.eqb type "elecsolarcnt" then
    Some <$> milli energy solar_device "CurrentElectricityQuantity"
  else if String.eqb type "heat" then
    Some <$> milli energy (p1_device ++ ".8") "CurrentHeatQuantity"
  else if String.eqb type "waterflow" then
    Some <$> per_minute energy (water_device ++ ".9") "CurrentWaterFlow"
  else if String.eqb type "waterusedcnt" then
    Some <$> milli energy (water_device ++ ".9") "CurrentWaterQuantity"
  else Return None.

(** [async_update] from [energy = self._data.latest_data] on. *)
Definition read (energy : pyval) (self : t) : t * result unit :=
  if negb (truthy energy) then (self, Return tt)
  else
    match compute (_type self) energy with
    | Return (Some v) => (set_state v self, Return tt)
    | Return None => (self, Return tt)
    | Raise e => (self, Raise e)
    end.

Definition async_update (now : Z) (net : network)
    (data : ToonSmartMeterData.t) (self : t)
  : ToonSmartMeterData.t * t * result unit :=
  let '(data, r) := ToonSmartMeterData.async_update now net data in
  match r with
  | Raise e => (data, self, Raise e)
  | Return _ =>
      let '(self, r) := read (ToonSmartMeterData.latest_data data) self in
      (data, self, r)
  end.

End ToonSmartMeterSensor.

(** ** [safe_get] *)

Definition _reducer (default : pyval) (d : pyval) (key : string) : pyval :=
  match d with
  | VDict m => match m !! key with Some v => v | None => default end
  | _ => default
  end.

Definition safe_get (_dict : pyval) (keys : list string) (default : pyval) : pyval :=
  fold_left (_reducer default) keys _dict.

(** ** The platform: configuration, set-up and polling *)

(** The three entries [PLATFORM_SCHEMA] adds to the host platform's base
    schema, as the configuration file gives them ([None]: entry omitted). *)
Record config := {
  CONF_HOST : option pyval;
  CONF_PORT : option pyval;
  CONF_RESOURCES : option pyval
}.

(** A configuration that passed the schema. *)
Record validated := {
  host : string;
  port : Z;
  resources : list string
}.

(** [cv.ensure_list] *)
Definition ensure_list (v : pyval) : list pyval :=
  match v with
  | VNone => []
  | VList l => l
  | _ => [v]
  end.

(** [vol.In(SENSOR_LIST)] *)
Definition In_SENSOR_LIST (v : pyval) : result string :=
  match v with
  | VStr s => if bool_decide (s ∈ SENSOR_LIST) then Return s else Raise Invalid
  | _ => Raise Invalid
  end.

(** [list(SENSOR_LIST)], evaluated once when the module is loaded: the
    identifiers of the set, each of them once, in the order in which the
    set hands them out. That order follows the hashes of the texts, which
    differ from one process to the next, so only this much is known of
    it. *)
Record list_SENSOR_LIST := {
  order : list string;
  order_Permutation : order ≡ₚ elements SENSOR_LIST
}.

Section Schema.

(** The host platform's validators [cv.string] and [cv.positive_int]. *)
Variable cv_string : pyval -> result string.
Variable cv_positive_int : pyval -> result Z.

(** The list [list(SENSOR_LIST)] of this process. *)
Variable listed : list_SENSOR_LIST.

(** A key with a default is given that default when it is omitted, and
    the default is validated like a configured value. A failure of any
    entry refuses the configuration. *)
Definition PLATFORM_SCHEMA (c : config) : result validated :=
  h ← match CONF_HOST c with
      | Some v => cv_string v
      | None => Raise Invalid
      end;
  p ← cv_positive_int (default (VInt 80) (CONF_PORT c));
  r ← mapM In_SENSOR_LIST
        (ensure_list (default (VList (VStr <$> order listed))
                              (CONF_RESOURCES c)));
  Return {| host := h; port := p; resources := r |}.

End Schema.

(** The shared gateway client and the sensors built on it. *)
Record platform := {
  data : ToonSmartMeterData.t;
  entities : list ToonSmartMeterSensor.t
}.

Definition async_setup_platform (session : ClientSession) (c : validated)
    (now : Z) (net : network) : result platform :=
  let data := ToonSmartMeterData.__init__ session (host c) (port c) in
  let '(data, r) := ToonSmartMeterData.async_update now net data in
  _ ← r;
  Return {| data := data;
            entities := ToonSmartMeterSensor.__init__ <$>
                          filter (λ d, key d ∈ resources c) SENSOR_TYPES |}.

(** The host platform validates a configuration against the schema before
    it calls [async_setup_platform]. *)
Definition setup (cv_string : pyval -> result string)
    (cv_positive_int : pyval -> result Z) (listed : list_SENSOR_LIST)
    (session : ClientSession)
    (c : config) (now : Z) (net : network) : result platform :=
  v ← PLATFORM_SCHEMA cv_string cv_positive_int listed c;
  async_setup_platform session v now net.

(** The gateway client's refresh, seen from the platform: the sensors are
    out of its reach. *)
Definition refresh (now : Z) (net : network) (p : platform)
  : platform * result unit :=
  let '(d, r) := ToonSmartMeterData.async_update now net (data p) in
  ({| data := d; entities := entities p |}, r).

(** One scheduled update of the sensor at index [i]. *)
Definition poll (i : nat) (now : Z) (net : network) (p : platform)
  : platform * result unit :=
  match entities p !! i with
  | None => (p, Return tt)
  | Some s =>
      let '(d, s', r) := ToonSmartMeterSensor.async_update now net (data p) s in
      ({| data := d; entities := <[i := s']> (entities p) |}, r)
  end.

(** The readings of all sensors. *)
Definition readings (p : platform) : list pyval :=
  ToonSmartMeterSensor.state <$> entities p.

(** A run of scheduled updates, each with the sensor's index, the time
    and what the network would answer; every update's outcome is kept. *)
Fixpoint polls (events : list (nat * Z * network)) (p : platform)
  : platform * list (result unit) :=
  match events with
  | [] => (p, [])
  | (i, now, net) :: rest =>
      let '(p1, r) := poll i now net p in
      let '(p2, rs) := polls rest p1 in
      (p2, r :: rs)
  end.

(** A run of calls of the gateway client's [async_update], each with its
    time and what the network would answer. *)
Fixpoint refreshes (calls : list (Z * network)) (self : ToonSmartMeterData.t)
  : ToonSmartMeterData.t :=
  match calls with
  | [] => self
  | (now, net) :: rest => refreshes rest (ToonSmartMeterData.async_update now net self).1
  end.

(** A transport failure: the connection is refused or the name does not
    resolve ([aiohttp.ClientError]), or the request times out. *)
Definition transport_failure (e : exception) : bool :=
  is_ClientError e || is_TimeoutError e.

(** The network hands over no usable document: a request or a body that
    fails with an [Exception], or a falsy document. *)
Definition no_document (net : network) : bool :=
  match net with
  | Raise e => is_Exception e
  | Return (Raise e) => is_Exception e
  | Return (Return v) => negb (truthy v)
  end.

(** ** The measurement table of the specification *)

Inductive transform := identity | divide_by_1000 | divide_by_60_round_1.

Record MeasurementSpec := {
  device_key : string;
  field : string;
  conversion : transform
}.

Definition row (id dev fld : string) (tr : transform) : string * MeasurementSpec :=
  (id, {| device_key := dev; field := fld; conversion := tr |}).

Definition measurement_table : list (string * MeasurementSpec) :=
  [ row "gasused" "dev_15.1" "CurrentGasFlow" divide_by_1000;
    row "gasusedcnt" "dev_15.1" "CurrentGasQuantity" divide_by_1000;
    row "elecusageflowpulse" "dev_15.2" "CurrentElectricityFlow" identity;
    row "elecusagecntpulse" "dev_15.2" "CurrentElectricityQuantity" divide_by_1000;
    row "elecusageflowlow" "dev_15.6" "CurrentElectricityFlow" identity;
    row "elecusagecntlow" "dev_15.6" "CurrentElectricityQuantity" divide_by_1000;
    row "elecusageflowhigh" "dev_15.4" "CurrentElectricityFlow" identity;
    row "elecusagecnthigh" "dev_15.4" "CurrentElectricityQuantity" divide_by_1000;
    row "elecprodflowlow" "dev_15.7" "CurrentElectricityFlow" identity;
    row "elecprodcntlow" "dev_15.7" "CurrentElectricityQuantity" divide_by_1000;
    row "elecprodflowhigh" "dev_15.5" "CurrentElectricityFlow" identity;
    row "elecprodcnthigh" "dev_15.5" "CurrentElectricityQuantity" divide_by_1000;
    row "elecsolar" "dev_20.export" "CurrentElectricityFlow" identity;
    row "elecsolarcnt" "dev_20.export" "CurrentElectricityQuantity" divide_by_1000;
    row "heat" "dev_15.8" "CurrentHeatQuantity" divide_by_1000;
    row "waterflow" "dev_27.9" "CurrentWaterFlow" divide_by_60_round_1;
    row "waterusedcnt" "dev_27.9" "CurrentWaterQuantity" divide_by_1000 ].

(** The transform of a row, on a raw field value read as a number. *)
Definition apply_transform (tr : transform) (raw : pyval) : result pyval :=
  match tr with
  | identity => Return raw
  | divide_by_1000 =>
      x ← py_float raw; Return (VFloat (PyFloat.div x (PyFloat.of_Z 1000)))
  | divide_by_60_round_1 =>
      x ← py_float raw;
      Return (VFloat (PyFloat.round1 (PyFloat.div x (PyFloat.of_Z 60))))
  end.

(** The value at the end of a row's path, when every segment is there. *)
Definition at_path (m : MeasurementSpec) (payload : pyval) : option pyval :=
  match payload with
  | VDict top =>
      match top !! device_key m with
      | Some (VDict dev) => dev !! field m
      | _ => None
      end
  | _ => None
  end.

(** The strict walk along [keys]: every value on the way is a mapping that
    holds the next key. *)
Fixpoint follow (v : pyval) (keys : list string) : option pyval :=
  match keys with
  | [] => Some v
  | k :: ks =>
      match v with
      | VDict m =>
          match m !! k with
          | Some x => follow x ks
          | None => None
          end
      | _ => None
      end
  end.

Definition is_mapping (v : pyval) : bool :=
  match v with
  | VDict _ => true
  | _ => false
  end.

(** ** Example documents *)

Definition gas_payload : pyval :=
  VDict {[ "dev_15.1" :=
             VDict {[ "CurrentGasFlow" := VStr "2000";
                      "CurrentGasQuantity" := VStr "500000" ]} ]}.

Definition water_payload (raw : pyval) : pyval :=
  VDict {[ "dev_27.9" := VDict {[ "CurrentWaterFlow" := raw ]} ]}.

Definition gas_flow_payload (raw : pyval) : pyval :=
  VDict {[ "dev_15.1" := VDict {[ "CurrentGasFlow" := raw ]} ]}.

Definition power_payload (raw : pyval) : pyval :=
  VDict {[ "dev_15.2" := VDict {[ "CurrentElectricityFlow" := raw ]} ]}.

(** The water meter without its flow field. *)
Definition water_counter_payload : pyval :=
  VDict {[ "dev_27.9" := VDict {[ "CurrentWaterQuantity" := VStr "7000" ]} ]}.

(** The row of the water flow. *)
Definition waterflow_row : MeasurementSpec :=
  {| device_key := "dev_27.9"; field := "CurrentWaterFlow";
     conversion := divide_by_60_round_1 |}.

Definition nan_payload : pyval :=
  VDict {[ "dev_15.1" := VDict {[ "CurrentGasFlow" := VStr "NaN" ]};
           "dev_15.2" := VDict {[ "CurrentElectricityFlow" := VStr "nan" ]} ]}.

(** The sensor of a measurement identifier, as [async_setup_platform]
    builds it. *)
Definition sensor (id : string) : ToonSmartMeterSensor.t :=
  ToonSmartMeterSensor.__init__
    (default (description id "" "" None None None)
             (list_find (λ d, String.eqb (key d) id) SENSOR_TYPES ≫= λ x, Some x.2)).

Definition toon : ToonSmartMeterData.t :=
  ToonSmartMeterData.__init__ {| requests := [] |} "toon.local" 80.

(** The gateway client after a fetch of the gas document at 0 s, then
    after calls at 9 s and at 12 s that would fetch the NaN document. *)
Definition toon_0 : ToonSmartMeterData.t :=
  (ToonSmartMeterData.async_update 0 (Return (Return gas_payload)) toon).1.
Definition toon_9 : ToonSmartMeterData.t :=
  (ToonSmartMeterData.async_update (timedelta 9) (Return (Return nan_payload)) toon_0).1.
Definition toon_12 : ToonSmartMeterData.t :=
  (ToonSmartMeterData.async_update (timedelta 12) (Return (Return nan_payload)) toon_9).1.

(** A later gas document. *)
Definition later_gas_payload : pyval :=
  VDict {[ "dev_15.1" :=
             VDict {[ "CurrentGasFlow" := VStr "3000";
                      "CurrentGasQuantity" := VStr "500100" ]} ]}.

(** The platform of the two gas sensors as set-up leaves it at 0 s, and
    after the first sensor's update at 1 s, which is throttled, and the
    second sensor's update at 20 s, which fetches the later document. *)
Definition gas_platform : platform :=
  {| data := toon_0; entities := [sensor "gasused"; sensor "gasusedcnt"] |}.

Definition gas_platform_20 : platform :=
  (polls [(0%nat, timedelta 1, Raise ClientError);
          (1%nat, timedelta 20, Return (Return later_gas_payload))] gas_platform).1.

(** A configuration that names the host only, and validators that accept
    text as a host and a non-negative integer as a port. *)
Definition host_only : config :=
  {| CONF_HOST := Some (VStr "toon.local"); CONF_PORT := None; CONF_RESOURCES := None |}.

Definition accept_text (v : pyval) : result string :=
  match v with
  | VStr s => Return s
  | _ => Raise Invalid
  end.

Definition accept_natural (v : pyval) : result Z :=
  match v with
  | VInt z => if 0 <=? z then Return z else Raise Invalid
  | _ => Raise Invalid
  end.

Definition with_port (v : pyval) (c : config) : config :=
  {| CONF_HOST := CONF_HOST c; CONF_PORT := Some v; CONF_RESOURCES := CONF_RESOURCES c |}.

Definition with_resources (v : pyval) (c : config) : config :=
  {| CONF_HOST := CONF_HOST c; CONF_PORT := CONF_PORT c; CONF_RESOURCES := Some v |}.

(** Two orders in which a process may find [list(SENSOR_LIST)]. *)
Definition sorted_order : list_SENSOR_LIST :=
  {| order := elements SENSOR_LIST; order_Permutation := reflexivity _ |}.

Definition reversed_order : list_SENSOR_LIST :=
  {| order := reverse (elements SENSOR_LIST);
     order_Permutation := reverse_Permutation _ |}.

(** * Properties *)

Import ToonSmartMeterSensor.

(** ** Basic facts *)

Lemma truthy_dict_lookup (d : gmap string pyval) k x :
  d !! k = Some x -> truthy (VDict d) = true.
Proof.
  intros H. simpl. rewrite bool_decide_eq_false_2; [done|].
  intros ->. by rewrite lookup_empty in H.
Qed.

Ltac table_cases H :=
  unfold measurement_table, row in H;
  repeat (apply elem_of_cons in H as [H|H]; [injection H as -> ->|]);
  [..|by apply elem_of_nil in H].

(** The chain of branches computes what the table says, row by row. *)
Lemma compute_table id m energy :
  (id, m) ∈ measurement_table ->
  compute id energy =
    Some <$> (d ← getitem energy (device_key m);
              x ← getitem d (field m);
              apply_transform (conversion m) x).
Proof.
  intros H. table_cases H; cbn; unfold milli, plain, per_minute;
    destruct (getitem energy _) as [d|]; cbn; try reflexivity;
    destruct (getitem d _) as [x|]; cbn; try reflexivity;
    destruct (py_float x); reflexivity.
Qed.

Lemma table_covers id :
  id ∈ SENSOR_LIST <-> ∃ m, (id, m) ∈ measurement_table.
Proof.
  split.
  - unfold SENSOR_LIST. intros H.
    repeat (apply elem_of_union in H as [H|H]);
      apply elem_of_singleton in H as ->;
      eexists; unfold measurement_table, row;
      apply list_elem_of_In; simpl; eauto 20.
  - intros [m H]. table_cases H; unfold SENSOR_LIST; set_solver.
Qed.

(** ** Extraction and transform *)

(** What [read] does once the payload is known to hold the identifier's
    path. *)
Lemma read_at_path id m energy raw self :
  (id, m) ∈ measurement_table ->
  _type self = id ->
  at_path m energy = Some raw ->
  read energy self =
    match apply_transform (conversion m) raw with
    | Return v => (set_state v self, Return tt)
    | Raise e => (self, Raise e)
    end.
Proof.
  intros Hrow Hty Hpath. unfold read, at_path in *.
  destruct energy as [| | | | | |top]; try discriminate.
  destruct (top !! device_key m) as [dev|] eqn:Hdev; [|discriminate].
  destruct dev as [| | | | | |dev]; try discriminate.
  rewrite (truthy_dict_lookup _ _ _ Hdev). cbn [negb].
  rewrite Hty, (compute_table _ _ _ Hrow). cbn. rewrite Hdev. cbn.
  rewrite Hpath. cbn.
  destruct (apply_transform (conversion m) raw); reflexivity.
Qed.

Lemma read_at_path_state id m energy raw self :
  (id, m) ∈ measurement_table ->
  _type self = id ->
  at_path m energy = Some raw ->
  match apply_transform (conversion m) raw with
  | Return v => read energy self = (set_state v self, Return tt) ∧
                state (read energy self).1 = v
  | Raise e => read energy self = (self, Raise e)
  end.
Proof.
  intros Hrow Hty Hpath. rewrite (read_at_path id m energy raw self Hrow Hty Hpath).
  destruct (apply_transform (conversion m) raw); [by split|reflexivity].
Qed.

(** C2: each of the 17 identifiers has a row in the table (and only
    they have one), and on a payload that holds the row's device key and
    field the update returns and the reading it stores is the raw value
    passed through the row's transform (where the raw value is not a
    number the transform's error is raised and the sensor is left as it
    was): the raw value itself for the electricity flows, its number
    divided by 1000, or divided by 60 and rounded to one decimal for the
    water flow. The gas document yields gasused = 2.0 and gasusedcnt =
    500.0; a raw gas flow of 1500, as a number or as a text, in ASCII or
    in full-width digits, yields 1.5; a raw water flow of 30 yields 0.5,
    of 100 yields 1.7, of 25 yields 0.4, and the ties 15 and 45 yield 0.2
    and 0.8; a raw electricity flow is stored as it is, number or text.
    The floats are given by their sign, significand and exponent. *)
Theorem reading_is_transform_of_raw :
  (∀ id, id ∈ SENSOR_LIST <-> ∃ m, (id, m) ∈ measurement_table) ∧
  (∀ id m energy raw self,
     (id, m) ∈ measurement_table ->
     _type self = id ->
     at_path m energy = Some raw ->
     match apply_transform (conversion m) raw with
     | Return v => read energy self = (set_state v self, Return tt) ∧
                   state (read energy self).1 = v
     | Raise e => read energy self = (self, Raise e)
     end) ∧
  (∀ x, apply_transform identity x = Return x) ∧
  (∀ x f, py_float x = Return f ->
     apply_transform divide_by_1000 x =
       Return (VFloat (PyFloat.div f (PyFloat.of_Z 1000))) ∧
     apply_transform divide_by_60_round_1 x =
       Return (VFloat (PyFloat.round1 (PyFloat.div f (PyFloat.of_Z 60))))) ∧
  (state (read gas_payload (sensor "gasused")).1 =
     VFloat (S754_finite false 4503599627370496 (-51)) ∧
   state (read gas_payload (sensor "gasusedcnt")).1 =
     VFloat (S754_finite false 8796093022208000 (-44)) ∧
   (read gas_payload (sensor "gasused")).2 = Return tt ∧
   (read gas_payload (sensor "gasusedcnt")).2 = Return tt) ∧
  (∀ raw, raw ∈ [VInt 1500; VStr "1500"; VStr " 1500.0 "; VStr "１５００";
                 VFloat (PyFloat.of_Z 1500)] ->
     state (read (gas_flow_payload raw) (sensor "gasused")).1 =
       VFloat (S754_finite false 6755399441055744 (-52))) ∧
  (∀ raw, raw ∈ [VInt 30; VStr "30"] ->
     state (read (water_payload raw) (sensor "waterflow")).1 =
       VFloat (S754_finite false 4503599627370496 (-53))) ∧
  (state (read (water_payload (VInt 100)) (sensor "waterflow")).1 =
     VFloat (S754_finite false 7656119366529843 (-52)) ∧
   state (read (water_payload (VInt 25)) (sensor "waterflow")).1 =
     VFloat (S754_finite false 7205759403792794 (-54)) ∧
   state (read (water_payload (VInt 15)) (sensor "waterflow")).1 =
     VFloat (S754_finite false 7205759403792794 (-55)) ∧
   state (read (water_payload (VInt 45)) (sensor "waterflow")).1 =
     VFloat (S754_finite false 7205759403792794 (-53))) ∧
  (state (read (power_payload (VInt 230)) (sensor "elecusageflowpulse")).1 = VInt 230 ∧
   state (read (power_payload (VStr "230")) (sensor "elecusageflowpulse")).1 = VStr "230").
Proof.
  split; [|split; [|split; [|split; [|split; [|split; [|split; [|split]]]]]]].
  - exact table_covers.
  - exact read_at_path_state.
  - reflexivity.
  - intros x f Hf. cbn. rewrite Hf. by split.
  - repeat split; vm_compute; reflexivity.
  - intros raw H. repeat (apply elem_of_cons in H as [->|H]; [vm_compute; reflexivity|]).
    by apply elem_of_nil in H.
  - intros raw H. repeat (apply elem_of_cons in H as [->|H]; [vm_compute; reflexivity|]).
    by apply elem_of_nil in H.
  - repeat split; vm_compute; reflexivity.
  - repeat split; vm_compute; reflexivity.
Qed.

Lemma reading_is_transform_of_raw_witness :
  (read (water_payload (VInt 100)) (sensor "waterflow") =
     (set_state (VFloat (S754_finite false 7656119366529843 (-52))) (sensor "waterflow"),
      Return tt) ∧
   state (read (water_payload (VInt 100)) (sensor "waterflow")).1 =
     VFloat (S754_finite false 7656119366529843 (-52))) ∧
  read (water_payload (VStr "thirty")) (sensor "waterflow") =
    (sensor "waterflow", Raise ValueError).
Proof.
  split.
  - refine (proj1 (proj2 reading_is_transform_of_raw) "waterflow" waterflow_row
             (water_payload (VInt 100)) (VInt 100) (sensor "waterflow") _ eq_refl _).
    + unfold measurement_table, row. apply list_elem_of_In. simpl. auto 20.
    + vm_compute. reflexivity.
  - refine (proj1 (proj2 reading_is_transform_of_raw) "waterflow" waterflow_row
             (water_payload (VStr "thirty")) (VStr "thirty") (sensor "waterflow") _ eq_refl _).
    + unfold measurement_table, row. apply list_elem_of_In. simpl. auto 20.
    + vm_compute. reflexivity.
Defined.

(** From the configuration to the readings: set-up fetches the gas
    document, and the first two sensors, polled one second later, read 2.0
    and 500.0 from the cached document without a second request. *)
Example gas_end_to_end :
  ∃ p, setup accept_text accept_natural reversed_order {| requests := [] |} host_only 0
         (Return (Return gas_payload)) = Return p ∧
       length (entities p) = 17%nat ∧
       take 2 (readings
         (poll 1 (timedelta 1) (Raise ClientError)
            (poll 0 (timedelta 1) (Raise ClientError) p).1).1) =
         [VFloat (PyFloat.of_Z 2); VFloat (PyFloat.of_Z 500)] ∧
       length (requests (ToonSmartMeterData._session (data
         (poll 1 (timedelta 1) (Raise ClientError)
            (poll 0 (timedelta 1) (Raise ClientError) p).1).1))) = 1%nat.
Proof. eexists. repeat split; vm_compute; reflexivity. Qed.

(** ** A payload without the path *)

(** What [read] does on a payload that lacks a segment of the path: the
    first lookup that fails decides the error. *)
Lemma read_off_path id m energy self :
  (id, m) ∈ measurement_table ->
  _type self = id ->
  at_path m energy = None ->
  read energy self =
    (self,
     if truthy energy then
       match energy with
       | VDict top =>
           match top !! device_key m with
           | None => Raise (KeyError (device_key m))
           | Some (VDict dev) => Raise (KeyError (field m))
           | Some _ => Raise TypeError
           end
       | _ => Raise TypeError
       end
     else Return tt).
Proof.
  intros Hrow Hty Hpath. unfold read.
  destruct (truthy energy) eqn:Ht; cbn [negb]; [|reflexivity].
  rewrite Hty, (compute_table _ _ _ Hrow).
  unfold at_path in Hpath.
  destruct energy as [| | | | | |top]; try reflexivity.
  cbn. destruct (top !! device_key m) as [dev|]; [|reflexivity].
  destruct dev as [| | | | | |dev]; try reflexivity.
  cbn. rewrite Hpath. reflexivity.
Qed.

(** C1, as the code has it: on a cached payload that lacks a segment of the
    identifier's path, a refresh whose fetch returns leaves the reading (the
    whole sensor) unchanged, and its outcome is decided by the first lookup
    that fails. It returns normally only when [latest_data] gives [None],
    that is when the cached payload is falsy. Otherwise it raises to the
    caller: [KeyError] with the device key when the payload is a mapping
    without that key, [KeyError] with the field when the device entry is a
    mapping without that field, and [TypeError] when the payload or the
    device entry is not a mapping. *)
Theorem refresh_off_path id m now net data data' self :
  (id, m) ∈ measurement_table ->
  _type self = id ->
  ToonSmartMeterData.async_update now net data = (data', Return tt) ->
  at_path m (ToonSmartMeterData.latest_data data') = None ->
  ToonSmartMeterSensor.async_update now net data self =
    (data', self,
     match ToonSmartMeterData.latest_data data' with
     | VNone => Return tt
     | VDict top =>
         match top !! device_key m with
         | None => Raise (KeyError (device_key m))
         | Some (VDict dev) => Raise (KeyError (field m))
         | Some _ => Raise TypeError
         end
     | _ => Raise TypeError
     end) ∧
  (ToonSmartMeterData.latest_data data' = VNone <->
   truthy (ToonSmartMeterData._data data') = false).
Proof.
  intros Hrow Hty Hup Hpath. unfold ToonSmartMeterSensor.async_update. rewrite Hup.
  rewrite (read_off_path id m _ self Hrow Hty Hpath).
  unfold ToonSmartMeterData.latest_data.
  destruct (truthy (ToonSmartMeterData._data data')) eqn:E; cbn [truthy].
  - rewrite E. split.
    + by destruct (ToonSmartMeterData._data data').
    + split; [|discriminate]. intros Hn. rewrite Hn in E. discriminate.
  - by split.
Qed.

Lemma refresh_off_path_witness :
  ToonSmartMeterSensor.async_update 0 (Return (Return gas_payload)) toon (sensor "waterflow") =
    ((ToonSmartMeterData.async_update 0 (Return (Return gas_payload)) toon).1,
     sensor "waterflow", Raise (KeyError "dev_27.9")) ∧
  ToonSmartMeterSensor.async_update 0 (Return (Return water_counter_payload)) toon
      (sensor "waterflow") =
    ((ToonSmartMeterData.async_update 0 (Return (Return water_counter_payload)) toon).1,
     sensor "waterflow", Raise (KeyError "CurrentWaterFlow")) ∧
  ToonSmartMeterSensor.async_update 0 (Return (Return (VDict {[ "dev_27.9" := VNone ]}))) toon
      (sensor "waterflow") =
    ((ToonSmartMeterData.async_update 0
        (Return (Return (VDict {[ "dev_27.9" := VNone ]}))) toon).1,
     sensor "waterflow", Raise TypeError) ∧
  ToonSmartMeterSensor.async_update 0 (Return (Return (VList [VInt 1]))) toon
      (sensor "waterflow") =
    ((ToonSmartMeterData.async_update 0 (Return (Return (VList [VInt 1]))) toon).1,
     sensor "waterflow", Raise TypeError) ∧
  ToonSmartMeterSensor.async_update 0 (Return (Return (VDict ∅))) toon
      (sensor "waterflow") =
    ((ToonSmartMeterData.async_update 0 (Return (Return (VDict ∅))) toon).1,
     sensor "waterflow", Return tt).
Proof.
  split; [|split; [|split; [|split]]];
    match goal with
    | |- ToonSmartMeterSensor.async_update _ ?net _ _ = _ =>
        refine (eq_trans (proj1 (refresh_off_path "waterflow" waterflow_row 0 net toon _
                                   (sensor "waterflow") _ eq_refl eq_refl _)) _);
        [ unfold measurement_table, row; apply list_elem_of_In; simpl; auto 20
        | vm_compute; reflexivity
        | vm_compute; reflexivity ]
    end.
Defined.

(** C1 as stated fails: the gas document is a cached payload without the
    water meter's device key, and a refresh of waterflow raises [KeyError]
    to the caller. *)
Lemma refresh_off_path_raises :
  at_path waterflow_row gas_payload = None ∧
  (ToonSmartMeterSensor.async_update 0 (Return (Return gas_payload)) toon (sensor "waterflow")).2
    = Raise (KeyError "dev_27.9").
Proof. split; vm_compute; reflexivity. Qed.

(** ** NaN *)

(** [_validateOutput] hands every value back as it is: the assignment of
    the zero never happens, because its right-hand side raises. *)
Lemma _validateOutput_id v : _validateOutput v = v.
Proof.
  unfold _validateOutput. destruct v; cbn; try reflexivity.
  destruct (String.eqb (lower s) "nan"); reflexivity.
Qed.

(** C3 fails on the code: with the raw text "NaN" the gas flow reading is
    the float NaN and the electricity flow reading is the text itself,
    neither is 0, and [_validateOutput "NaN"] is "NaN". *)
Theorem nan_reading_is_not_zero :
  lower "NaN" = "nan" ∧
  _validateOutput (VStr "NaN") = VStr "NaN" ∧
  read nan_payload (sensor "gasused") =
    (set_state (VFloat S754_nan) (sensor "gasused"), Return tt) ∧
  read nan_payload (sensor "elecusageflowpulse") =
    (set_state (VStr "nan") (sensor "elecusageflowpulse"), Return tt).
Proof. repeat split; vm_compute; reflexivity. Qed.

(** ** Determinism *)

(** C7: a second refresh against the same cached payload ends as the first
    did and leaves the same reading, for the extraction step alone and for
    the whole update when the gateway client hands out the same payload. *)
Theorem read_twice :
  (∀ energy self, read energy (read energy self).1 = read energy self) ∧
  (∀ now1 net1 now2 net2 data d1 self,
     ToonSmartMeterData.async_update now1 net1 data = (d1, Return tt) ->
     ToonSmartMeterData.async_update now2 net2 d1 = (d1, Return tt) ->
     ToonSmartMeterSensor.async_update now2 net2 d1 (ToonSmartMeterSensor.async_update now1 net1 data self).1.2 =
       ToonSmartMeterSensor.async_update now1 net1 data self).
Proof.
  assert (∀ energy self, read energy (read energy self).1 = read energy self) as Hread.
  { intros energy self. unfold read. destruct (truthy energy) eqn:Ht; cbn.
    - destruct (compute (_type self) energy) as [[v|]|e] eqn:E; cbn;
        rewrite ?Ht, ?E; reflexivity.
    - reflexivity. }
  split; [exact Hread|].
  intros now1 net1 now2 net2 data d1 self H1 H2.
  unfold ToonSmartMeterSensor.async_update. rewrite H1. cbn.
  destruct (read _ self) as [s1 r1] eqn:E. cbn. rewrite H2.
  specialize (Hread (ToonSmartMeterData.latest_data d1) self).
  rewrite E in Hread. cbn in Hread. by rewrite Hread.
Qed.

Lemma read_twice_witness :
  ToonSmartMeterSensor.async_update (timedelta 3) (Raise ClientError)
     (ToonSmartMeterData.async_update 0 (Return (Return gas_payload)) toon).1
     (ToonSmartMeterSensor.async_update 0 (Return (Return gas_payload)) toon (sensor "gasused")).1.2 =
  ToonSmartMeterSensor.async_update 0 (Return (Return gas_payload)) toon (sensor "gasused").
Proof.
  apply (proj2 read_twice 0 (Return (Return gas_payload)) (timedelta 3) (Raise ClientError));
    vm_compute; reflexivity.
Defined.

(** ** The cached payload *)

(** C9: [latest_data] hands out the cached payload only when it is truthy
    and [None] otherwise, whatever falsy document was fetched; after a
    fetch of the empty object it answers as before any fetch. *)
Theorem latest_data_truthy_only :
  (∀ self,
     ToonSmartMeterData.latest_data self =
       if truthy (ToonSmartMeterData._data self)
       then ToonSmartMeterData._data self else VNone) ∧
  (∀ v self,
     ToonSmartMeterData.latest_data
       (ToonSmartMeterData.download (Return (Return v)) self).1 =
     if truthy v then v else VNone) ∧
  truthy (VDict ∅) = false ∧
  (∀ self session host port,
     ToonSmartMeterData.latest_data
       (ToonSmartMeterData.download (Return (Return (VDict ∅))) self).1 =
     ToonSmartMeterData.latest_data (ToonSmartMeterData.__init__ session host port)).
Proof. repeat split. Qed.

(** ** [safe_get] *)

Lemma safe_get_cons d k ks default :
  safe_get d (k :: ks) default = safe_get (_reducer default d k) ks default.
Proof. reflexivity. Qed.

Lemma safe_get_default_stays ks default :
  is_mapping default = false -> safe_get default ks default = default.
Proof.
  intros H. induction ks as [|k ks IH]; [reflexivity|].
  rewrite safe_get_cons. destruct default; try discriminate; exact IH.
Qed.

Lemma safe_get_over_app d ks1 ks2 default :
  safe_get d (ks1 ++ ks2) default = safe_get (safe_get d ks1 default) ks2 default.
Proof. unfold safe_get. apply fold_left_app. Qed.

Lemma follow_safe_get d keys default v :
  follow d keys = Some v -> safe_get d keys default = v.
Proof.
  revert d. induction keys as [|k ks IH]; intros d H; cbn in H.
  - by inversion H.
  - rewrite safe_get_cons. destruct d as [| | | | | |m]; try discriminate.
    cbn. destruct (m !! k) as [x|]; [by apply IH|discriminate].
Qed.

(** A walk that fails has a first key that is missed. *)
Lemma follow_first_miss d keys :
  follow d keys = None ->
  ∃ pre k ks v, keys = (pre ++ k :: ks)%list ∧ follow d pre = Some v ∧ follow v [k] = None.
Proof.
  revert d. induction keys as [|k ks IH]; intros d H; [discriminate|].
  destruct (follow d [k]) as [x|] eqn:E.
  - assert (follow x ks = None) as Hx.
    { cbn in H, E. destruct d as [| | | | | |m]; try discriminate.
      destruct (m !! k); [|discriminate]. by inversion E; subst. }
    destruct (IH x Hx) as (pre & k' & ks' & v & -> & Hpre & Hk).
    exists (k :: pre), k', ks', v. split; [reflexivity|]. split; [|exact Hk].
    cbn in E |- *. destruct d as [| | | | | |m]; try discriminate.
    destruct (m !! k); [|discriminate]. by inversion E; subst.
  - exists [], k, ks, d. by repeat split.
Qed.

(** C10, as the code has it: [safe_get] is a total function. It returns
    the nested value when every value on the way is a mapping that holds
    the next key. Otherwise there is a first key that is missed, at
    whatever depth: the value reached there is not a mapping or lacks that
    key; the default takes its place and the keys after it are looked up
    in the default, by [safe_get] again. So the result is the default when
    no key remains after the miss or when the default is not a mapping (as
    for the default [None]), and it is a value inside the default when the
    default is a mapping that holds the remaining keys. *)
Theorem safe_get_spec (d : pyval) (keys : list string) (default : pyval) :
  (∀ v, follow d keys = Some v -> safe_get d keys default = v) ∧
  (follow d keys = None ->
     ∃ pre k ks v, keys = (pre ++ k :: ks)%list ∧
                   follow d pre = Some v ∧ follow v [k] = None) ∧
  (∀ pre k ks v, keys = (pre ++ k :: ks)%list ->
     follow d pre = Some v -> follow v [k] = None ->
     safe_get d keys default = safe_get default ks default) ∧
  (follow d keys = None -> is_mapping default = false ->
     safe_get d keys default = default).
Proof.
  split; [|split; [|split]].
  - intros v. apply follow_safe_get.
  - apply follow_first_miss.
  - intros pre k ks v -> Hpre Hk.
    rewrite safe_get_over_app, (follow_safe_get _ _ default _ Hpre), safe_get_cons.
    cbn in Hk. destruct v as [| | | | | |m]; cbn; try reflexivity.
    destruct (m !! k); [discriminate|reflexivity].
  - intros H Hdef.
    destruct (follow_first_miss d keys H) as (pre & k & ks & v & -> & Hpre & Hk).
    rewrite safe_get_over_app, (follow_safe_get _ _ default _ Hpre), safe_get_cons.
    cbn in Hk. destruct v as [| | | | | |m]; cbn; try by apply safe_get_default_stays.
    destruct (m !! k); [discriminate|by apply safe_get_default_stays].
Qed.

Lemma safe_get_spec_witness :
  safe_get gas_payload ["dev_15.1"; "CurrentGasFlow"] VNone = VStr "2000" ∧
  safe_get gas_payload ["dev_27.9"; "CurrentWaterFlow"] VNone = VNone ∧
  safe_get (VDict {[ "a" := VDict ∅ ]}) ["a"; "b"; "c"] (VDict {[ "c" := VInt 1 ]}) =
    safe_get (VDict {[ "c" := VInt 1 ]}) ["c"] (VDict {[ "c" := VInt 1 ]}) ∧
  safe_get (VDict {[ "c" := VInt 1 ]}) ["c"] (VDict {[ "c" := VInt 1 ]}) = VInt 1.
Proof.
  split; [|split; [|split]].
  - apply (proj1 (safe_get_spec gas_payload ["dev_15.1"; "CurrentGasFlow"] VNone)).
    vm_compute. reflexivity.
  - apply (proj2 (proj2 (proj2
             (safe_get_spec gas_payload ["dev_27.9"; "CurrentWaterFlow"] VNone))));
      vm_compute; reflexivity.
  - apply (proj1 (proj2 (proj2 (safe_get_spec (VDict {[ "a" := VDict ∅ ]}) ["a"; "b"; "c"]
                                  (VDict {[ "c" := VInt 1 ]}))))
             ["a"] "b" ["c"] (VDict ∅)); vm_compute; reflexivity.
  - apply (proj1 (safe_get_spec (VDict {[ "c" := VInt 1 ]}) ["c"]
                    (VDict {[ "c" := VInt 1 ]}))).
    vm_compute. reflexivity.
Defined.

(** C10 as stated fails: the first key is missing, yet the result is not
    the default, because the second key is then looked up in the default;
    and so it is when the miss comes at the second key of three. *)
Lemma safe_get_walks_into_default :
  follow (VDict ∅) ["a"] = None ∧
  safe_get (VDict ∅) ["a"; "b"] (VDict {[ "b" := VInt 1 ]}) = VInt 1 ∧
  VInt 1 ≠ VDict {[ "b" := VInt 1 ]} ∧
  follow (VDict {[ "a" := VDict ∅ ]}) ["a"; "b"] = None ∧
  safe_get (VDict {[ "a" := VDict ∅ ]}) ["a"; "b"; "c"] (VDict {[ "c" := VInt 1 ]}) = VInt 1 ∧
  VInt 1 ≠ VDict {[ "c" := VInt 1 ]}.
Proof. repeat split; try (vm_compute; reflexivity); discriminate. Qed.

(** ** The throttle *)

Import ToonSmartMeterData.

Lemma download_frame net self :
  _throttle (download net self).1 = _throttle self ∧
  requests (_session (download net self).1) = _url self :: requests (_session self) ∧
  _url (download net self).1 = _url self.
Proof.
  unfold download. destruct net as [[v|e]|e]; cbn.
  - done.
  - by destruct (is_Exception e).
  - by destruct (is_ClientError e), (is_TimeoutError e), (is_Exception e).
Qed.

Lemma async_update_throttled now net self :
  throttled MIN_TIME_BETWEEN_UPDATES (_throttle self) now = true ->
  ToonSmartMeterData.async_update now net self = (self, Return tt).
Proof. intros H. unfold ToonSmartMeterData.async_update, Throttle. by rewrite H. Qed.

Lemma async_update_runs now net self :
  throttled MIN_TIME_BETWEEN_UPDATES (_throttle self) now = false ->
  ToonSmartMeterData.async_update now net self = download net (set_throttle now self).
Proof. intros H. unfold ToonSmartMeterData.async_update, Throttle. by rewrite H. Qed.

Lemma throttled_after t now :
  now - t < MIN_TIME_BETWEEN_UPDATES ->
  throttled MIN_TIME_BETWEEN_UPDATES (Some t) now = true.
Proof. intros H. cbn. by apply Z.ltb_lt. Qed.

(** The time of the last run never goes back. *)
Lemma async_update_stamp now net self t :
  _throttle self = Some t ->
  ∃ t', _throttle (ToonSmartMeterData.async_update now net self).1 = Some t' ∧ t <= t'.
Proof.
  intros Ht.
  destruct (throttled MIN_TIME_BETWEEN_UPDATES (_throttle self) now) eqn:E.
  - rewrite (async_update_throttled _ _ _ E). exists t. split; [exact Ht|lia].
  - rewrite (async_update_runs _ _ _ E).
    destruct (download_frame net (set_throttle now self)) as (-> & _).
    exists now. split; [reflexivity|].
    rewrite Ht in E. cbn in E. apply Z.ltb_ge in E.
    unfold MIN_TIME_BETWEEN_UPDATES, timedelta in E. lia.
Qed.

Lemma refreshes_stamp calls self t :
  _throttle self = Some t ->
  ∃ t', _throttle (refreshes calls self) = Some t' ∧ t <= t'.
Proof.
  revert self t. induction calls as [|[now net] calls IH]; intros self t Ht.
  - exists t. split; [exact Ht|lia].
  - destruct (async_update_stamp now net self t Ht) as (t1 & H1 & Hle).
    destruct (IH _ t1 H1) as (t2 & H2 & Hle2).
    exists t2. split; [exact H2|lia].
Qed.

Lemma refreshes_throttled calls self t :
  _throttle self = Some t ->
  Forall (λ c, c.1 - t < MIN_TIME_BETWEEN_UPDATES) calls ->
  refreshes calls self = self.
Proof.
  intros Ht. induction 1 as [|[now net] calls Hc _ IH]; [reflexivity|].
  cbn [refreshes]. rewrite (async_update_throttled now net self); [exact IH|].
  rewrite Ht. by apply throttled_after.
Qed.

Lemma async_update_sends now net self :
  requests (_session (ToonSmartMeterData.async_update now net self).1) =
    ((if throttled MIN_TIME_BETWEEN_UPDATES (_throttle self) now then []
      else [_url self]) ++ requests (_session self))%list.
Proof.
  destruct (throttled MIN_TIME_BETWEEN_UPDATES (_throttle self) now) eqn:E.
  - by rewrite (async_update_throttled _ _ _ E).
  - rewrite (async_update_runs _ _ _ E).
    by destruct (download_frame net (set_throttle now self)) as (_ & -> & _).
Qed.

Lemma async_update_ran_stamp now net self :
  throttled MIN_TIME_BETWEEN_UPDATES (_throttle self) now = false ->
  _throttle (ToonSmartMeterData.async_update now net self).1 = Some now.
Proof.
  intros E. rewrite (async_update_runs _ _ _ E).
  by destruct (download_frame net (set_throttle now self)) as (-> & _).
Qed.


Lemma refreshes_app calls1 calls2 self :
  refreshes (calls1 ++ calls2) self = refreshes calls2 (refreshes calls1 self).
Proof.
  revert self. induction calls1 as [|[now net] calls1 IH]; intros self; [reflexivity|].
  cbn. apply IH.
Qed.

(** Calls that all fall into one span shorter than the interval send at
    most one request. *)
Lemma refreshes_one_request calls self lo hi :
  hi - lo < MIN_TIME_BETWEEN_UPDATES ->
  Forall (λ c, lo <= c.1 <= hi) calls ->
  ∃ sent, requests (_session (refreshes calls self)) = (sent ++ requests (_session self))%list ∧
          (length sent <= 1)%nat.
Proof.
  intros Hspan Hall. revert self.
  induction Hall as [|[now net] calls Hc Hall IH]; intros self.
  - exists []. split; [reflexivity|cbn; lia].
  - cbn [refreshes]. cbn in Hc.
    destruct (throttled MIN_TIME_BETWEEN_UPDATES (_throttle self) now) eqn:E.
    + rewrite (async_update_throttled _ _ _ E). cbn. apply IH.
    + rewrite (refreshes_throttled calls _ now).
      * rewrite async_update_sends, E. exists [_url self]. split; [reflexivity|cbn; lia].
      * by apply async_update_ran_stamp.
      * eapply Forall_impl; [exact Hall|]. intros [u n] Hu. cbn in *. lia.
Qed.

(** C4, as the throttle has it: take two refresh calls less than 10
    seconds apart, with any calls between them. At most one of the two
    performs an HTTP GET, and when the calls between them are issued
    between the two in time, all the calls from the first to the second
    together perform at most one. When the first of the two ran (it was
    not itself inside the interval of an earlier run), the second changes
    nothing and sends nothing; and with the calls between them issued no
    later than the second, the gateway client is then as the first call
    left it, so a reading computed after the second call is the reading
    computed after the first. *)
Theorem throttle_window now1 net1 between now2 net2 self :
  now2 - now1 < MIN_TIME_BETWEEN_UPDATES ->
  let d1 := (ToonSmartMeterData.async_update now1 net1 self).1 in
  let d := refreshes between d1 in
  let d2 := (ToonSmartMeterData.async_update now2 net2 d).1 in
  (∃ sent1 sent2,
     requests (_session d1) = (sent1 ++ requests (_session self))%list ∧
     requests (_session d2) = (sent2 ++ requests (_session d))%list ∧
     (length sent1 + length sent2 <= 1)%nat) ∧
  (Forall (λ c, now1 <= c.1 <= now2) between ->
     ∃ sent, requests (_session d2) = (sent ++ requests (_session self))%list ∧
             (length sent <= 1)%nat) ∧
  (throttled MIN_TIME_BETWEEN_UPDATES (_throttle self) now1 = false ->
     ToonSmartMeterData.async_update now2 net2 d = (d, Return tt) ∧
     requests (_session d2) = requests (_session d) ∧
     (Forall (λ c, c.1 <= now2) between ->
        d = d1 ∧ d2 = d1 ∧
        ∀ sensor, read (latest_data d2) sensor = read (latest_data d1) sensor)).
Proof.
  intros Hclose d1 d d2.
  assert (throttled MIN_TIME_BETWEEN_UPDATES (_throttle self) now1 = false ->
          ToonSmartMeterData.async_update now2 net2 d = (d, Return tt)) as Hnoop.
  { intros H1. apply async_update_throttled.
    destruct (refreshes_stamp between d1 now1) as (t & Ht & Hle).
    { by apply async_update_ran_stamp. }
    fold d in Ht. rewrite Ht. apply throttled_after. lia. }
  assert (∃ sent1 sent2,
     requests (_session d1) = (sent1 ++ requests (_session self))%list ∧
     requests (_session d2) = (sent2 ++ requests (_session d))%list ∧
     (length sent1 + length sent2 <= 1)%nat) as Htwo.
  { eexists _, _. split; [apply async_update_sends|]. split; [apply async_update_sends|].
    destruct (throttled MIN_TIME_BETWEEN_UPDATES (_throttle self) now1) eqn:H1.
    + destruct (throttled _ (_throttle d) now2); cbn; lia.
    + specialize (Hnoop eq_refl).
      destruct (throttled _ (_throttle d) now2) eqn:H2; [cbn; lia|].
      exfalso. unfold ToonSmartMeterData.async_update, Throttle in Hnoop.
      rewrite H2 in Hnoop.
      pose proof (download_frame net2 (set_throttle now2 d)) as (_ & Hreq & _).
      rewrite Hnoop in Hreq. cbn in Hreq.
      apply (f_equal length) in Hreq. cbn in Hreq. lia. }
  split; [exact Htwo|]. split.
  - intros Hbetween. destruct (Z.le_gt_cases now1 now2) as [Hle|Hgt].
    + change d2 with (refreshes [(now2, net2)] (refreshes between d1)).
      rewrite <- refreshes_app.
      change (refreshes (between ++ [(now2, net2)]) d1)
        with (refreshes ((now1, net1) :: between ++ [(now2, net2)]) self).
      apply (refreshes_one_request _ self now1 now2 Hclose).
      constructor; [cbn; lia|]. apply Forall_app. split; [exact Hbetween|].
      constructor; [cbn; lia|constructor].
    + destruct between as [|[u n] between].
      * destruct Htwo as (sent1 & sent2 & Hs1 & Hs2 & Hlen).
        exists (sent2 ++ sent1)%list. subst d. cbn [refreshes] in Hs2.
        rewrite Hs2, Hs1, length_app, <- (assoc_L (++)). split; [reflexivity|lia].
      * inversion Hbetween; subst. cbn in *. lia.
  - intros H1. specialize (Hnoop H1). split; [exact Hnoop|].
    subst d2. rewrite Hnoop. cbn. split; [reflexivity|].
    intros Hbetween.
    assert (d = d1) as ->; [|by repeat split].
    apply (refreshes_throttled between d1 now1).
    + by apply async_update_ran_stamp.
    + eapply Forall_impl; [exact Hbetween|]. intros [u n] Hu. cbn in *. lia.
Qed.

Lemma throttle_window_witness :
  (∃ sent,
     requests (_session
       (ToonSmartMeterData.async_update (timedelta 9) (Return (Return nan_payload))
          (refreshes [(timedelta 5, Return (Return nan_payload))] toon_0)).1) =
       (sent ++ requests (_session toon))%list ∧ (length sent <= 1)%nat) ∧
  ToonSmartMeterData.async_update (timedelta 9) (Return (Return nan_payload))
    (refreshes [(timedelta 5, Return (Return nan_payload))] toon_0) =
    (refreshes [(timedelta 5, Return (Return nan_payload))] toon_0, Return tt) ∧
  refreshes [(timedelta 5, Return (Return nan_payload))] toon_0 = toon_0 ∧
  ∀ sensor,
    read (latest_data
            (ToonSmartMeterData.async_update (timedelta 9) (Return (Return nan_payload))
               (refreshes [(timedelta 5, Return (Return nan_payload))] toon_0)).1) sensor =
    read (latest_data toon_0) sensor.
Proof.
  assert (timedelta 9 - 0 < MIN_TIME_BETWEEN_UPDATES) as Hclose by (vm_compute; reflexivity).
  assert (Forall (λ c : Z * network, 0 <= c.1 <= timedelta 9)
            [(timedelta 5, Return (Return nan_payload))]) as Hin.
  { repeat constructor; vm_compute; discriminate. }
  assert (Forall (λ c : Z * network, c.1 <= timedelta 9)
            [(timedelta 5, Return (Return nan_payload))]) as Hbefore.
  { repeat constructor; vm_compute; discriminate. }
  destruct (throttle_window 0 (Return (Return gas_payload))
              [(timedelta 5, Return (Return nan_payload))]
              (timedelta 9) (Return (Return nan_payload)) toon Hclose)
    as (_ & Hall & Hran).
  destruct (Hran eq_refl) as (Hnoop & _ & Hsame).
  destruct (Hsame Hbefore) as (Hd & _ & Hread).
  split; [exact (Hall Hin)|]. split; [exact Hnoop|]. split; [exact Hd|exact Hread].
Defined.

(** C4 as stated fails: after a fetch at 0 s, the calls at 9 s and at 12 s
    are 3 seconds apart; the first of the two is throttled, the second one
    sends a GET, replaces the payload and changes the reading. *)
Lemma second_call_fetches :
  (timedelta 12 - timedelta 9 <? MIN_TIME_BETWEEN_UPDATES) = true ∧
  toon_9 = toon_0 ∧
  length (requests (_session toon_12)) = S (length (requests (_session toon_9))) ∧
  state (read (latest_data toon_9) (sensor "gasused")).1 = VFloat (PyFloat.of_Z 2) ∧
  state (read (latest_data toon_12) (sensor "gasused")).1 = VFloat S754_nan.
Proof. repeat split; vm_compute; reflexivity. Qed.

(** ** Failures of the fetch *)

Lemma async_update_transport_failure now e self :
  transport_failure e = true ->
  ∃ d, ToonSmartMeterData.async_update now (Raise e) self = (d, Return tt) ∧
       _data d = _data self.
Proof.
  intros He. unfold ToonSmartMeterData.async_update, Throttle.
  destruct (throttled _ _ _); [by eexists|].
  unfold download, transport_failure in *.
  destruct (is_ClientError e); [by eexists|].
  destruct (is_TimeoutError e); [by eexists|discriminate].
Qed.

Lemma transport_failure_is_Exception e :
  transport_failure e = true -> is_Exception e = true.
Proof. by destruct e. Qed.

(** C5, as the code has it: a fetch whose request meets a transport
    failure returns normally and leaves the cached payload as it was, and
    the sensor update in which that fetch happens is a re-read of the
    cached payload: the sensor takes, and may raise, what that payload
    gives, and no other sensor is touched; so a sensor whose reading
    already is what the cached payload gives keeps it. A transport failure
    that is met while the body of the answer is read sets the cached
    payload to [None], without raising. *)
Theorem transport_failure_keeps_cache now e p :
  transport_failure e = true ->
  (∃ d, ToonSmartMeterData.async_update now (Raise e) (data p) = (d, Return tt) ∧
        _data d = _data (data p) ∧
        latest_data d = latest_data (data p) ∧
        ∀ i s, entities p !! i = Some s ->
          poll i now (Raise e) p =
            ({| data := d;
                entities := <[i := (read (latest_data (data p)) s).1]> (entities p) |},
             (read (latest_data (data p)) s).2)) ∧
  (∀ i s, entities p !! i = Some s ->
     read (latest_data (data p)) s = (s, Return tt) ->
     ∃ p', poll i now (Raise e) p = (p', Return tt) ∧
           _data (data p') = _data (data p) ∧
           entities p' = entities p) ∧
  (throttled MIN_TIME_BETWEEN_UPDATES (_throttle (data p)) now = false ->
     ∃ d, ToonSmartMeterData.async_update now (Return (Raise e)) (data p) = (d, Return tt) ∧
          _data d = VNone).
Proof.
  intros He.
  destruct (async_update_transport_failure now e (data p) He) as (d & Hd & Hsame).
  assert (latest_data d = latest_data (data p)) as Hlatest.
  { unfold latest_data. by rewrite Hsame. }
  assert (∀ i s, entities p !! i = Some s ->
          poll i now (Raise e) p =
            ({| data := d;
                entities := <[i := (read (latest_data (data p)) s).1]> (entities p) |},
             (read (latest_data (data p)) s).2)) as Hpoll.
  { intros i s Hi. unfold poll, ToonSmartMeterSensor.async_update. rewrite Hi, Hd. cbn.
    rewrite Hlatest. by destruct (read (latest_data (data p)) s). }
  split; [|split].
  - exists d. by repeat split.
  - intros i s Hi Hsync. rewrite (Hpoll i s Hi), Hsync. cbn.
    eexists. split; [reflexivity|]. cbn. split; [done|]. by apply list_insert_id.
  - intros Hopen. rewrite (async_update_runs _ _ _ Hopen). unfold download.
    rewrite (transport_failure_is_Exception e He). by eexists.
Qed.

Lemma transport_failure_keeps_cache_witness :
  (∃ d, ToonSmartMeterData.async_update (timedelta 40) (Raise TimeoutError)
          (data gas_platform_20) = (d, Return tt) ∧
        _data d = _data (data gas_platform_20) ∧
        latest_data d = latest_data (data gas_platform_20) ∧
        ∀ i s, entities gas_platform_20 !! i = Some s ->
          poll i (timedelta 40) (Raise TimeoutError) gas_platform_20 =
            ({| data := d;
                entities := <[i := (read (latest_data (data gas_platform_20)) s).1]>
                              (entities gas_platform_20) |},
             (read (latest_data (data gas_platform_20)) s).2)) ∧
  (∀ i s, entities gas_platform_20 !! i = Some s ->
     read (latest_data (data gas_platform_20)) s = (s, Return tt) ->
     ∃ p', poll i (timedelta 40) (Raise TimeoutError) gas_platform_20 = (p', Return tt) ∧
           _data (data p') = _data (data gas_platform_20) ∧
           entities p' = entities gas_platform_20) ∧
  (throttled MIN_TIME_BETWEEN_UPDATES (_throttle (data gas_platform_20)) (timedelta 40)
     = false ->
   ∃ d, ToonSmartMeterData.async_update (timedelta 40) (Return (Raise TimeoutError))
          (data gas_platform_20) = (d, Return tt) ∧
        _data d = VNone).
Proof.
  apply (transport_failure_keeps_cache (timedelta 40) TimeoutError gas_platform_20).
  reflexivity.
Defined.

(** C5 as stated fails. The gateway client holds the gas document; a
    fetch at 60 s whose body times out while it is read returns normally
    but sets the cached payload to [None]. And on the platform of the two
    gas sensors, as set-up and two updates leave it, the first sensor reads
    2.0 while the cache holds the later document: its update at 40 s, whose
    request times out, changes that reading to 3.0. *)
Lemma body_timeout_drops_cache :
  transport_failure TimeoutError = true ∧
  _data toon_0 = gas_payload ∧
  ToonSmartMeterData.async_update (timedelta 60) (Return (Raise TimeoutError)) toon_0 =
    (set_data VNone (send (set_throttle (timedelta 60) toon_0)), Return tt) ∧
  _data (ToonSmartMeterData.async_update (timedelta 60) (Return (Raise TimeoutError)) toon_0).1
    = VNone ∧
  VNone ≠ gas_payload ∧
  async_setup_platform {| requests := [] |}
    {| host := "toon.local"; port := 80; resources := ["gasused"; "gasusedcnt"] |}
    0 (Return (Return gas_payload)) = Return gas_platform ∧
  readings gas_platform_20 =
    [VFloat (PyFloat.of_Z 2); VFloat (PyFloat.of_decimal false 5001 (-1))] ∧
  poll 0 (timedelta 40) (Raise TimeoutError) gas_platform_20 =
    ({| data := send (set_throttle (timedelta 40) (data gas_platform_20));
        entities := <[0%nat := set_state (VFloat (PyFloat.of_Z 3)) (sensor "gasused")]>
                      (entities gas_platform_20) |},
     Return tt) ∧
  readings (poll 0 (timedelta 40) (Raise TimeoutError) gas_platform_20).1 =
    [VFloat (PyFloat.of_Z 3); VFloat (PyFloat.of_decimal false 5001 (-1))] ∧
  VFloat (PyFloat.of_Z 2) ≠ VFloat (PyFloat.of_Z 3).
Proof.
  repeat split; try (vm_compute; reflexivity); vm_compute; discriminate.
Qed.

Lemma async_update_no_document now net self :
  no_document net = true ->
  latest_data self = VNone ->
  ∃ d, ToonSmartMeterData.async_update now net self = (d, Return tt) ∧
       latest_data d = VNone.
Proof.
  intros Hnet Habs. unfold ToonSmartMeterData.async_update, Throttle.
  destruct (throttled _ _ _); [by eexists|].
  unfold download. destruct net as [[v|e]|e]; cbn in Hnet.
  - eexists. split; [reflexivity|]. unfold latest_data. cbn.
    by destruct (truthy v).
  - rewrite Hnet. by eexists.
  - rewrite Hnet. destruct (is_ClientError e); [by eexists|].
    destruct (is_TimeoutError e); by eexists.
Qed.

Lemma poll_absent i now net p d :
  ToonSmartMeterData.async_update now net (data p) = (d, Return tt) ->
  latest_data d = VNone ->
  is_Some (entities p !! i) ->
  poll i now net p = ({| data := d; entities := entities p |}, Return tt).
Proof.
  intros Hd Habs [s Hs]. unfold poll, ToonSmartMeterSensor.async_update. rewrite Hs, Hd. cbn.
  rewrite Habs. cbn. by rewrite list_insert_id.
Qed.

Lemma polls_absent events p :
  latest_data (data p) = VNone ->
  Forall (λ ev, no_document ev.2 = true) events ->
  ∃ p', polls events p = (p', (λ _, Return tt) <$> events) ∧
        entities p' = entities p ∧
        latest_data (data p') = VNone.
Proof.
  revert p. induction events as [|[[i now] net] events IH]; intros p Habs Hev.
  - by eexists.
  - inversion Hev as [|? ? Hnet Hrest]; subst. cbn in Hnet.
    destruct (async_update_no_document now net (data p) Hnet Habs) as (d & Hd & Hd').
    cbn [polls fmap list_fmap].
    destruct (entities p !! i) as [s|] eqn:Hi.
    + rewrite (poll_absent i now net p d Hd Hd'); [|by eexists].
      destruct (IH {| data := d; entities := entities p |} Hd' Hrest)
        as (p' & -> & He & Hl).
      by eexists.
    + unfold poll. rewrite Hi.
      destruct (IH p Habs Hrest) as (p' & -> & He & Hl).
      by eexists.
Qed.

(** C6: a fetch whose body does not parse leaves the cached payload absent;
    the update in which that fetch happens and every later update, as long
    as the network hands over no usable document, return normally and leave
    all readings unchanged. *)
Theorem malformed_body_invalidates e i now events p :
  is_Exception e = true ->
  throttled MIN_TIME_BETWEEN_UPDATES (_throttle (data p)) now = false ->
  is_Some (entities p !! i) ->
  Forall (λ ev, no_document ev.2 = true) events ->
  (∃ d, ToonSmartMeterData.async_update now (Return (Raise e)) (data p) = (d, Return tt) ∧
        _data d = VNone ∧ latest_data d = VNone) ∧
  (∃ p', polls ((i, now, Return (Raise e)) :: events) p =
           (p', (λ _, Return tt) <$> ((i, now, Return (Raise e)) :: events)) ∧
         readings p' = readings p ∧
         latest_data (data p') = VNone).
Proof.
  intros He Hopen Hi Hev.
  assert (∃ d, ToonSmartMeterData.async_update now (Return (Raise e)) (data p) = (d, Return tt) ∧
               _data d = VNone ∧ latest_data d = VNone) as (d & Hd & Hd0 & Hd').
  { rewrite (async_update_runs _ _ _ Hopen). unfold download. rewrite He. by eexists. }
  split; [by exists d|].
  cbn [polls]. rewrite (poll_absent i now _ p d Hd Hd' Hi).
  destruct (polls_absent events {| data := d; entities := entities p |} Hd' Hev)
    as (p' & -> & Hent & Hl).
  exists p'. split; [reflexivity|]. split; [|exact Hl].
  unfold readings. by rewrite Hent.
Qed.

Lemma malformed_body_invalidates_witness :
  (∃ d, ToonSmartMeterData.async_update (timedelta 60) (Return (Raise JSONDecodeError)) toon_0
          = (d, Return tt) ∧
        _data d = VNone ∧ latest_data d = VNone) ∧
  (∃ p', polls [(0%nat, timedelta 60, Return (Raise JSONDecodeError));
                (0%nat, timedelta 120, Raise ClientError)]
               {| data := toon_0; entities := [(read gas_payload (sensor "gasused")).1] |} =
           (p', [Return tt; Return tt]) ∧
         readings p' = [VFloat (PyFloat.of_Z 2)] ∧
         latest_data (data p') = VNone).
Proof.
  apply (malformed_body_invalidates JSONDecodeError 0%nat (timedelta 60)
           [(0%nat, timedelta 120, Raise ClientError)]
           {| data := toon_0; entities := [(read gas_payload (sensor "gasused")).1] |}).
  - reflexivity.
  - vm_compute. reflexivity.
  - by eexists.
  - repeat constructor.
Defined.

(** ** Configuration *)

Lemma In_SENSOR_LIST_Return x s :
  In_SENSOR_LIST x = Return s -> x = VStr s ∧ s ∈ SENSOR_LIST.
Proof.
  unfold In_SENSOR_LIST. destruct x as [| | | |t| |]; try discriminate.
  case_bool_decide as Ht; [|discriminate]. intros [= <-]. by split.
Qed.

Lemma mapM_In_SENSOR_LIST l r :
  mapM In_SENSOR_LIST l = Return r ->
  Forall (λ x, ∃ s, x = VStr s ∧ s ∈ SENSOR_LIST) l ∧ Forall (λ s, s ∈ SENSOR_LIST) r.
Proof.
  revert r. induction l as [|x l IH]; intros r H.
  - inversion H. by split.
  - change (mapM In_SENSOR_LIST (x :: l))
      with (y ← In_SENSOR_LIST x; k ← mapM In_SENSOR_LIST l; mret (y :: k)) in H.
    destruct (In_SENSOR_LIST x) as [s|] eqn:Ex; [|discriminate].
    destruct (mapM In_SENSOR_LIST l) as [r'|] eqn:E; [|discriminate].
    inversion H; subst.
    apply In_SENSOR_LIST_Return in Ex as [-> Hs].
    destruct (IH r' eq_refl) as [Hl Hr].
    split; constructor; eauto.
Qed.

(** C8: an omitted port is validated as the port 80 and, where the
    validator takes 80 as it is, the configured port is 80; a
    configuration that passes only holds identifiers of the fixed set; and
    a configuration that names anything outside that set is refused by the
    schema, so that set-up ends with that error and no platform exists to
    be polled. *)
Theorem schema_defaults_and_rejects
    (cv_string : pyval -> result string) (cv_positive_int : pyval -> result Z)
    (listed : list_SENSOR_LIST) :
  (∀ c, CONF_PORT c = None ->
     PLATFORM_SCHEMA cv_string cv_positive_int listed c =
     PLATFORM_SCHEMA cv_string cv_positive_int listed (with_port (VInt 80) c)) ∧
  (∀ c v, cv_positive_int (VInt 80) = Return 80 ->
     CONF_PORT c = None ->
     PLATFORM_SCHEMA cv_string cv_positive_int listed c = Return v ->
     port v = 80) ∧
  (∀ c v, PLATFORM_SCHEMA cv_string cv_positive_int listed c = Return v ->
     Forall (λ s, s ∈ SENSOR_LIST) (resources v)) ∧
  (∀ c r x, CONF_RESOURCES c = Some r ->
     x ∈ ensure_list r ->
     (∀ s, x = VStr s -> s ∉ SENSOR_LIST) ->
     ∃ e, PLATFORM_SCHEMA cv_string cv_positive_int listed c = Raise e ∧
          ∀ session now net,
            setup cv_string cv_positive_int listed session c now net = Raise e).
Proof.
  split; [|split; [|split]].
  - intros c Hp. unfold PLATFORM_SCHEMA, with_port. cbn. by rewrite Hp.
  - intros c v H80 Hp H. unfold PLATFORM_SCHEMA in H. rewrite Hp in H. cbn in H.
    destruct (match CONF_HOST c with Some v0 => cv_string v0 | None => Raise Invalid end);
      [|discriminate].
    cbn in H. rewrite H80 in H. cbn in H.
    destruct (mapM _ _); [|discriminate]. cbn in H. by inversion H.
  - intros c v H. unfold PLATFORM_SCHEMA in H.
    destruct (match CONF_HOST c with Some v0 => cv_string v0 | None => Raise Invalid end);
      [|discriminate].
    cbn in H. destruct (cv_positive_int _); [|discriminate]. cbn in H.
    destruct (mapM _ _) as [r|] eqn:E; [|discriminate]. cbn in H.
    inversion H; subst. cbn. by apply mapM_In_SENSOR_LIST in E as [_ ?].
  - intros c r x Hr Hx Hbad.
    assert (∃ e, PLATFORM_SCHEMA cv_string cv_positive_int listed c = Raise e) as [e He].
    { destruct (PLATFORM_SCHEMA cv_string cv_positive_int listed c) as [v|e] eqn:E; [|by eexists].
      exfalso. unfold PLATFORM_SCHEMA in E. rewrite Hr in E.
      destruct (match CONF_HOST c with Some v0 => cv_string v0 | None => Raise Invalid end);
        [|discriminate].
      cbn in E. destruct (cv_positive_int _); [|discriminate]. cbn in E.
      destruct (mapM _ _) as [l|] eqn:El; [|discriminate].
      apply mapM_In_SENSOR_LIST in El as [Hall _].
      rewrite Forall_forall in Hall. destruct (Hall x Hx) as (s & -> & Hs).
      by apply (Hbad s). }
    exists e. split; [exact He|]. intros session now net. unfold setup. by rewrite He.
Qed.

Lemma schema_defaults_and_rejects_witness :
  port {| host := "toon.local"; port := 80;
          resources := reverse (elements SENSOR_LIST) |} = 80 ∧
  ∃ e, PLATFORM_SCHEMA accept_text accept_natural reversed_order
         {| CONF_HOST := Some (VStr "toon.local"); CONF_PORT := None;
            CONF_RESOURCES := Some (VList [VStr "gasused"; VStr "power"]) |} = Raise e ∧
       ∀ session now net,
         setup accept_text accept_natural reversed_order session
           {| CONF_HOST := Some (VStr "toon.local"); CONF_PORT := None;
              CONF_RESOURCES := Some (VList [VStr "gasused"; VStr "power"]) |} now net = Raise e.
Proof.
  split.
  - apply (proj1 (proj2 (schema_defaults_and_rejects accept_text accept_natural reversed_order)) host_only).
    + reflexivity.
    + reflexivity.
    + vm_compute. reflexivity.
  - apply (proj2 (proj2 (proj2 (schema_defaults_and_rejects accept_text accept_natural reversed_order)))
             _ (VList [VStr "gasused"; VStr "power"]) (VStr "power")).
    + reflexivity.
    + cbn. apply list_elem_of_In. simpl. auto.
    + intros s [= <-]. vm_compute. intros H. discriminate.
Defined.

(** * Further properties of the module *)

(** ** [_validateOutput] *)

(** X1: [_validateOutput] returns its argument for every value, the texts
    that read "nan" in any letter case included: the zero is never
    substituted. *)
Theorem validateOutput_returns_argument v : _validateOutput v = v.
Proof.
  unfold _validateOutput. destruct v as [| | | |s| |]; cbn; try reflexivity.
  destruct (String.eqb (lower s) "nan"); cbn; reflexivity.
Qed.

(** ** The gateway client absorbs errors *)

(** The outcomes of one call of the gateway client's [async_update]. *)
Lemma async_update_outcome now net self :
  ((ToonSmartMeterData.async_update now net self).2 = Return tt ∨
   ∃ e, (ToonSmartMeterData.async_update now net self).2 = Raise e ∧
        is_Exception e = false ∧
        (net = Raise e ∨ net = Return (Raise e))) ∧
  (_data (ToonSmartMeterData.async_update now net self).1 = _data self ∨
   _data (ToonSmartMeterData.async_update now net self).1 = VNone ∨
   net = Return (Return (_data (ToonSmartMeterData.async_update now net self).1))) ∧
  _url (ToonSmartMeterData.async_update now net self).1 = _url self ∧
  (requests (_session (ToonSmartMeterData.async_update now net self).1) =
     requests (_session self) ∨
   requests (_session (ToonSmartMeterData.async_update now net self).1) =
     _url self :: requests (_session self)).
Proof.
  unfold ToonSmartMeterData.async_update, Throttle.
  destruct (throttled _ _ _); [cbn; by auto|].
  unfold download. destruct net as [[v|e]|e]; cbn.
  - by auto 10.
  - destruct (is_Exception e) eqn:E; cbn; [by auto 10|].
    repeat split; eauto 10.
  - destruct (is_ClientError e); [cbn; by auto 10|].
    destruct (is_TimeoutError e); [cbn; by auto 10|].
    destruct (is_Exception e) eqn:E; cbn; [by auto 10|].
    repeat split; eauto 10.
Qed.

(** X2: whatever the network does, [ToonSmartMeterData.async_update] raises
    nothing that is an [Exception]: it returns normally, or lets through the
    very non-[Exception] the request or the body raised. Afterwards the
    cached payload is the old one, [None], or the document just fetched,
    the URL is the same, and at most one request was sent, to that URL. *)
Theorem gateway_absorbs_exceptions now net self :
  ((ToonSmartMeterData.async_update now net self).2 = Return tt ∨
   ∃ e, (ToonSmartMeterData.async_update now net self).2 = Raise e ∧
        is_Exception e = false ∧
        (net = Raise e ∨ net = Return (Raise e))) ∧
  (_data (ToonSmartMeterData.async_update now net self).1 = _data self ∨
   _data (ToonSmartMeterData.async_update now net self).1 = VNone ∨
   net = Return (Return (_data (ToonSmartMeterData.async_update now net self).1))) ∧
  _url (ToonSmartMeterData.async_update now net self).1 = _url self ∧
  (requests (_session (ToonSmartMeterData.async_update now net self).1) =
     requests (_session self) ∨
   requests (_session (ToonSmartMeterData.async_update now net self).1) =
     _url self :: requests (_session self)).
Proof.
  unfold ToonSmartMeterData.async_update, Throttle.
  destruct (throttled _ _ _); [cbn; by auto|].
  unfold download. destruct net as [[v|e]|e]; cbn.
  - by auto 10.
  - destruct (is_Exception e) eqn:E; cbn; [by auto 10|].
    repeat split; eauto 10.
  - destruct (is_ClientError e); [cbn; by auto 10|].
    destruct (is_TimeoutError e); [cbn; by auto 10|].
    destruct (is_Exception e) eqn:E; cbn; [by auto 10|].
    repeat split; eauto 10.
Qed.

(** ** The branches of the sensor *)

Lemma compute_listed id energy :
  id ∈ SENSOR_LIST -> compute id energy ≠ Return None.
Proof.
  intros H. apply table_covers in H as [m H].
  rewrite (compute_table _ _ _ H).
  destruct (d ← getitem energy (device_key m);
            x ← getitem d (field m);
            apply_transform (conversion m) x); discriminate.
Qed.

Lemma compute_unlisted id energy :
  id ∉ SENSOR_LIST -> compute id energy = Return None.
Proof.
  intros H. unfold compute.
  repeat match goal with
         | |- context [String.eqb id ?s] =>
             destruct (String.eqb_spec id s) as [->|_];
             [exfalso; apply H; unfold SENSOR_LIST; set_solver|]
         end.
  reflexivity.
Qed.

(** X3: the chain of branches takes a branch exactly for the identifiers of
    [SENSOR_LIST]; for any other identifier it assigns nothing and raises
    nothing, whatever the payload. *)
Theorem branch_taken_iff_listed id energy :
  (id ∈ SENSOR_LIST <-> compute id energy ≠ Return None) ∧
  (id ∉ SENSOR_LIST <-> compute id energy = Return None).
Proof.
  split; split.
  - apply compute_listed.
  - intros H. destruct (decide (id ∈ SENSOR_LIST)) as [|Hn]; [done|].
    destruct H. by apply compute_unlisted.
  - apply compute_unlisted.
  - intros H Hin. by apply (compute_listed id energy).
Qed.

(** ** [safe_get] and the direct lookup *)

(** X4: with the default [None], [safe_get] on a device key and a field
    agrees with the sensor's direct lookup [energy[device][field]] whenever
    that lookup succeeds, and gives [None] whenever the lookup raises. *)
Theorem safe_get_agrees_with_lookup energy device fld :
  match plain energy device fld with
  | Return v => safe_get energy [device; fld] VNone = v
  | Raise _ => safe_get energy [device; fld] VNone = VNone
  end.
Proof.
  unfold plain, safe_get. cbn.
  destruct energy as [| | | | | |top]; cbn; try reflexivity.
  destruct (top !! device) as [d|]; cbn; [|reflexivity].
  destruct d as [| | | | | |dev]; cbn; try reflexivity.
  destruct (dev !! fld); reflexivity.
Qed.

(** X5: looking up a path in two steps is looking it up at once:
    [safe_get] over the keys [ks1 ++ ks2] is [safe_get] over [ks2] from the
    result of [safe_get] over [ks1]; with no key it returns its argument. *)
Theorem safe_get_app d ks1 ks2 default :
  safe_get d (ks1 ++ ks2)%list default =
    safe_get (safe_get d ks1 default) ks2 default ∧
  safe_get d [] default = d.
Proof. split; [apply fold_left_app|reflexivity]. Qed.

(** ** What a sensor update can raise, and what it leaves alone *)

Lemma float_of_string_raises s e :
  float_of_string s = Raise e -> e = ValueError.
Proof.
  unfold float_of_string.
  destruct (_ ≫= drop_underscores None) as [l|]; [|by intros [= <-]].
  destruct (take_sign (strip l)) as [sg body].
  destruct (parse_inf_or_nan sg body) as [[f|]|]; try discriminate;
    [by intros [= <-]|].
  destruct (parse_decimal sg body); [discriminate|by intros [= <-]].
Qed.

Lemma py_float_raises x e :
  py_float x = Raise e -> e = TypeError ∨ e = ValueError ∨ e = OverflowError.
Proof.
  destruct x as [|b|z|f|s|l|d]; cbn; try discriminate; try (intros [= <-]; tauto).
  - destruct (PyFloat.of_Z z); try discriminate. intros [= <-]. tauto.
  - intros H. apply float_of_string_raises in H. tauto.
Qed.

Lemma getitem_raises v k e :
  getitem v k = Raise e -> e = TypeError ∨ e = KeyError k.
Proof.
  destruct v as [| | | | | |d]; cbn; try (intros [= <-]; tauto).
  destruct (d !! k); [discriminate|]. intros [= <-]. tauto.
Qed.

Lemma compute_raises id energy e :
  compute id energy = Raise e ->
  e = TypeError ∨ e = ValueError ∨ e = OverflowError ∨ ∃ k, e = KeyError k.
Proof.
  destruct (decide (id ∈ SENSOR_LIST)) as [Hin|Hout].
  2:{ rewrite (compute_unlisted _ _ Hout). discriminate. }
  apply table_covers in Hin as [m Hm]. rewrite (compute_table _ _ _ Hm).
  destruct (getitem energy (device_key m)) as [d|e1] eqn:E1; cbn.
  2:{ intros [= <-]. apply getitem_raises in E1 as [->| ->]; eauto. }
  destruct (getitem d (field m)) as [x|e2] eqn:E2; cbn.
  2:{ intros [= <-]. apply getitem_raises in E2 as [->| ->]; eauto. }
  destruct (conversion m); cbn; try discriminate;
    destruct (py_float x) as [f|e3] eqn:E3; cbn; try discriminate;
    intros [= <-]; apply py_float_raises in E3; tauto.
Qed.

(** X6: an update of a sensor that raises leaves the sensor as it was, and
    what it raises is a [KeyError], a [TypeError], a [ValueError] or an
    [OverflowError] from the extraction, or the non-[Exception] the gateway
    client let through; an update that returns changes at most the
    reading. *)
Theorem sensor_update_atomic now net data self :
  (∀ e, (ToonSmartMeterSensor.async_update now net data self).2 = Raise e ->
     (ToonSmartMeterSensor.async_update now net data self).1.2 = self ∧
     (is_Exception e = false ∨ e = TypeError ∨ e = ValueError ∨
      e = OverflowError ∨ ∃ k, e = KeyError k)) ∧
  ∃ v, (ToonSmartMeterSensor.async_update now net data self).1.2 = set_state v self.
Proof.
  unfold ToonSmartMeterSensor.async_update.
  destruct (async_update_outcome now net data) as ([Hr|(e0 & Hr & He0 & _)] & _).
  - destruct (ToonSmartMeterData.async_update now net data) as [d r]. cbn in Hr. subst r.
    unfold read. destruct (negb (truthy (latest_data d))); cbn.
    { split; [discriminate|]. exists (_state self). by destruct self. }
    destruct (compute (_type self) (latest_data d)) as [[v|]|e1] eqn:E; cbn.
    + split; [discriminate|]. by exists v.
    + split; [discriminate|]. exists (_state self). by destruct self.
    + split; [|exists (_state self); by destruct self].
      intros e [= <-]. split; [reflexivity|].
      apply compute_raises in E. tauto.
  - destruct (ToonSmartMeterData.async_update now net data) as [d r]. cbn in Hr. subst r.
    cbn. split; [|exists (_state self); by destruct self].
    intros e [= <-]. by auto.
Qed.

Lemma sensor_update_atomic_witness :
  (ToonSmartMeterSensor.async_update 0 (Return (Return gas_payload)) toon
     (sensor "waterflow")).1.2 = sensor "waterflow" ∧
  (is_Exception (KeyError "dev_27.9") = false ∨ KeyError "dev_27.9" = TypeError ∨
   KeyError "dev_27.9" = ValueError ∨ KeyError "dev_27.9" = OverflowError ∨
   ∃ k, KeyError "dev_27.9" = KeyError k).
Proof.
  apply (proj1 (sensor_update_atomic 0 (Return (Return gas_payload)) toon
                  (sensor "waterflow"))).
  vm_compute. reflexivity.
Defined.

Lemma sensor_update_sets_state now net data self :
  ∃ v, (ToonSmartMeterSensor.async_update now net data self).1.2 = set_state v self.
Proof.
  unfold ToonSmartMeterSensor.async_update.
  destruct (ToonSmartMeterData.async_update now net data) as [d [[]|e]]; cbn;
    [|exists (_state self); by destruct self].
  unfold read. destruct (negb (truthy (latest_data d))); cbn;
    [exists (_state self); by destruct self|].
  destruct (compute (_type self) (latest_data d)) as [[v|]|e1]; cbn;
    [by exists v|exists (_state self); by destruct self..].
Qed.

(** X7: a scheduled update of the sensor at index [i] keeps the number of
    sensors, leaves every other sensor as it was, and changes at most the
    reading of sensor [i]: its identifier, name, unique id and description
    stay. *)
Theorem poll_frame i now net p :
  length (entities (poll i now net p).1) = length (entities p) ∧
  (∀ j, j ≠ i -> entities (poll i now net p).1 !! j = entities p !! j) ∧
  (∀ s, entities p !! i = Some s ->
     ∃ v, entities (poll i now net p).1 !! i = Some (set_state v s)).
Proof.
  unfold poll. destruct (entities p !! i) as [s|] eqn:Hi.
  - destruct (sensor_update_sets_state now net (data p) s) as [v Hv].
    destruct (ToonSmartMeterSensor.async_update now net (data p) s) as [[d s'] r].
    cbn in Hv. subst s'. cbn.
    split; [apply length_insert|]. split.
    + intros j Hj. by apply list_lookup_insert_ne.
    + intros s0 [= <-]. exists v. apply list_lookup_insert_eq.
      by apply lookup_lt_Some in Hi.
  - cbn. split; [done|]. split; [done|]. discriminate.
Qed.

Lemma poll_frame_witness :
  ∃ v, entities (poll 0 0 (Return (Return gas_payload))
                   {| data := toon; entities := [sensor "gasused"] |}).1 !! 0%nat =
       Some (set_state v (sensor "gasused")).
Proof.
  apply (proj2 (proj2 (poll_frame 0 0 (Return (Return gas_payload))
                         {| data := toon; entities := [sensor "gasused"] |}))).
  reflexivity.
Defined.

(** ** Set-up *)

Lemma SENSOR_TYPES_keys_NoDup : NoDup (key <$> SENSOR_TYPES).
Proof. refine (bool_decide_unpack _ _). vm_compute. exact I. Qed.

Lemma SENSOR_TYPES_keys id : id ∈ key <$> SENSOR_TYPES <-> id ∈ SENSOR_LIST.
Proof.
  split.
  - intros H. apply list_elem_of_In in H. cbn in H.
    repeat (destruct H as [<-|H]; [unfold SENSOR_LIST; set_solver|]). done.
  - intros H. unfold SENSOR_LIST in H.
    repeat (apply elem_of_union in H as [H|H]);
      apply elem_of_singleton in H as ->; apply list_elem_of_In; cbn; auto 20.
Qed.

Lemma fmap_filter_NoDup {A B : Type} (f : A -> B) (P : A -> Prop)
    `{∀ x, Decision (P x)} (l : list A) :
  NoDup (f <$> l) -> NoDup (f <$> filter P l).
Proof.
  intros Hnd. eapply sublist_NoDup; [exact Hnd|].
  apply fmap_sublist, sublist_filter.
Qed.

Lemma async_setup_platform_entities session c now net p :
  async_setup_platform session c now net = Return p ->
  entities p = ToonSmartMeterSensor.__init__ <$>
                 filter (λ d, key d ∈ resources c) SENSOR_TYPES.
Proof.
  unfold async_setup_platform.
  remember (ToonSmartMeterSensor.__init__ <$>
              filter (λ d, key d ∈ resources c) SENSOR_TYPES) as ents eqn:Hents.
  clear Hents.
  destruct (ToonSmartMeterData.async_update _ _ _) as [d [[]|e]].
  - intros [= <-]. reflexivity.
  - intros H. inversion H.
Qed.

(** X8: the sensors [async_setup_platform] builds are the descriptions of
    [SENSOR_TYPES] whose key is configured, in the order of [SENSOR_TYPES]:
    one sensor for each configured identifier of [SENSOR_LIST] however
    often or in whatever order it is configured, with pairwise different
    identifiers and unique ids, and every reading still [None]. *)
Theorem setup_builds_one_sensor_per_identifier session c now net p :
  async_setup_platform session c now net = Return p ->
  entity_description <$> entities p `sublist_of` SENSOR_TYPES ∧
  NoDup (_type <$> entities p) ∧
  NoDup (_attr_unique_id <$> entities p) ∧
  (∀ id, id ∈ _type <$> entities p <-> id ∈ resources c ∧ id ∈ SENSOR_LIST) ∧
  Forall (λ v, v = VNone) (readings p).
Proof.
  intros H. apply async_setup_platform_entities in H.
  unfold readings. rewrite H, <- !list_fmap_compose.
  split; [|split; [|split; [|split]]].
  - change (entity_description ∘ ToonSmartMeterSensor.__init__) with (@id SensorEntityDescription).
    rewrite list_fmap_id. apply sublist_filter.
  - change (_type ∘ ToonSmartMeterSensor.__init__) with key.
    apply fmap_filter_NoDup, SENSOR_TYPES_keys_NoDup.
  - apply fmap_filter_NoDup. refine (bool_decide_unpack _ _). vm_compute. exact I.
  - intros id. change (_type ∘ ToonSmartMeterSensor.__init__) with key.
    rewrite <- SENSOR_TYPES_keys, !list_elem_of_fmap. split.
    + intros (d & -> & Hd). apply list_elem_of_filter in Hd as [Hr Hd]. eauto.
    + intros (Hr & d & -> & Hd). exists d. split; [done|].
      by apply list_elem_of_filter.
  - apply Forall_fmap, Forall_true. done.
Qed.

Lemma setup_builds_one_sensor_per_identifier_witness :
  ∃ p,
    async_setup_platform {| requests := [] |}
      {| host := "toon.local"; port := 80;
         resources := ["waterflow"; "gasused"; "waterflow"] |}
      0 (Return (Return gas_payload)) = Return p ∧
    _type <$> entities p = ["gasused"; "waterflow"] ∧
    NoDup (_attr_unique_id <$> entities p).
Proof.
  eexists. split; [vm_compute; reflexivity|]. split; [vm_compute; reflexivity|].
  eapply (setup_builds_one_sensor_per_identifier {| requests := [] |}
            {| host := "toon.local"; port := 80;
               resources := ["waterflow"; "gasused"; "waterflow"] |}
            0 (Return (Return gas_payload))).
  vm_compute. reflexivity.
Defined.

(** X9: [async_setup_platform] always sends exactly one request, to the
    URL made of the configured host and port, since a new gateway client
    is never throttled; it fails only with a non-[Exception] that the
    request or the body raised, and otherwise the cache holds the fetched
    document or [None]. *)
Theorem setup_fetches_once session c now net :
  match async_setup_platform session c now net with
  | Return p =>
      requests (_session (data p)) =
        ("http://" ++ host c ++ ":" ++ pretty (port c) ++
         "/hdrv_zwave?action=getDevices.json") :: requests session ∧
      _url (data p) = BASE_URL (host c) (port c) ∧
      _throttle (data p) = Some now ∧
      (_data (data p) = VNone ∨ net = Return (Return (_data (data p))))
  | Raise e =>
      is_Exception e = false ∧ (net = Raise e ∨ net = Return (Raise e))
  end.
Proof.
  unfold async_setup_platform.
  generalize (ToonSmartMeterSensor.__init__ <$>
                filter (λ d, key d ∈ resources c) SENSOR_TYPES).
  intros ents. unfold ToonSmartMeterData.async_update, Throttle.
  cbn. unfold download. destruct net as [[v|e]|e]; cbn.
  - by auto.
  - destruct (is_Exception e) eqn:E; cbn; by auto.
  - destruct (is_ClientError e); [cbn; by auto|].
    destruct (is_TimeoutError e); [cbn; by auto|].
    destruct (is_Exception e) eqn:E; cbn; by auto.
Qed.

(** ** The configured resources *)

Lemma mapM_In_SENSOR_LIST_fmap l r :
  mapM In_SENSOR_LIST l = Return r -> VStr <$> r = l.
Proof.
  revert r. induction l as [|x l IH]; intros r H.
  - by inversion H.
  - change (mapM In_SENSOR_LIST (x :: l))
      with (y ← In_SENSOR_LIST x; k ← mapM In_SENSOR_LIST l; mret (y :: k)) in H.
    destruct (In_SENSOR_LIST x) as [s|] eqn:Ex; [|discriminate].
    destruct (mapM In_SENSOR_LIST l) as [r'|] eqn:E; [|discriminate].
    inversion H; subst.
    apply In_SENSOR_LIST_Return in Ex as [-> _].
    rewrite fmap_cons. f_equal. by apply IH.
Qed.

Lemma mapM_In_SENSOR_LIST_texts l r :
  mapM In_SENSOR_LIST (VStr <$> l) = Return r -> r = l.
Proof.
  intros H. apply mapM_In_SENSOR_LIST_fmap in H.
  revert l H. induction r as [|x r IH]; intros [|y l] H; try discriminate.
  - reflexivity.
  - rewrite !fmap_cons in H. inversion H. f_equal. by apply IH.
Qed.

Lemma PLATFORM_SCHEMA_resources cs cp listed c v :
  PLATFORM_SCHEMA cs cp listed c = Return v ->
  mapM In_SENSOR_LIST
    (ensure_list (default (VList (VStr <$> order listed)) (CONF_RESOURCES c)))
  = Return (resources v).
Proof.
  unfold PLATFORM_SCHEMA.
  generalize (mapM In_SENSOR_LIST
    (ensure_list (default (VList (VStr <$> order listed)) (CONF_RESOURCES c)))).
  intros m.
  destruct (match CONF_HOST c with Some v0 => cs v0 | None => Raise Invalid end);
    [|intros H; inversion H].
  destruct (cp _); [|intros H; inversion H].
  destruct m as [r|]; [|intros H; inversion H].
  intros H. inversion H. reflexivity.
Qed.

Lemma Return_inj {A : Type} (a b : A) : Return a = Return b -> a = b.
Proof. by intros [= ->]. Qed.

(** X10: what an accepted configuration's resources are: when the entry is
    omitted, the list [list(SENSOR_LIST)] of this process, which holds every
    identifier of [SENSOR_LIST] once, in an order that is the process's own;
    none when the entry is [None]; the one identifier when it is a bare
    text; and the listed texts, in their order and with their repetitions,
    when it is a list. *)
Theorem accepted_resources cs cp listed c v :
  PLATFORM_SCHEMA cs cp listed c = Return v ->
  (CONF_RESOURCES c = None ->
     resources v = order listed ∧ resources v ≡ₚ elements SENSOR_LIST) ∧
  (CONF_RESOURCES c = Some VNone -> resources v = []) ∧
  (∀ s, CONF_RESOURCES c = Some (VStr s) -> resources v = [s] ∧ s ∈ SENSOR_LIST) ∧
  (∀ l, CONF_RESOURCES c = Some (VList l) -> VStr <$> resources v = l).
Proof.
  intros H. apply PLATFORM_SCHEMA_resources in H.
  split; [|split; [|split]].
  - intros Hc. rewrite Hc in H. cbn [default ensure_list] in H.
    apply mapM_In_SENSOR_LIST_texts in H. rewrite H.
    split; [reflexivity|apply order_Permutation].
  - intros Hc. rewrite Hc in H. cbn [default ensure_list] in H.
    symmetry. by apply Return_inj.
  - intros s Hc. rewrite Hc in H. cbn [default ensure_list] in H.
    pose proof (mapM_In_SENSOR_LIST_fmap _ _ H) as Hl.
    apply mapM_In_SENSOR_LIST in H as [Hall _].
    destruct (resources v) as [|x [|y r]]; try discriminate.
    inversion Hl; subst. split; [done|].
    inversion Hall as [|? ? (s' & Heq & Hs)]. by inversion Heq; subst.
  - intros l Hc. rewrite Hc in H. cbn [default ensure_list] in H.
    by apply mapM_In_SENSOR_LIST_fmap.
Qed.

Lemma accepted_resources_witness :
  (resources {| host := "toon.local"; port := 80;
                resources := reverse (elements SENSOR_LIST) |} =
     reverse (elements SENSOR_LIST) ∧
   resources {| host := "toon.local"; port := 80;
                resources := reverse (elements SENSOR_LIST) |} ≡ₚ
     elements SENSOR_LIST) ∧
  resources {| host := "toon.local"; port := 80; resources := [] |} = [] ∧
  (resources {| host := "toon.local"; port := 80; resources := ["heat"] |} = ["heat"] ∧
   "heat" ∈ SENSOR_LIST) ∧
  VStr <$> resources {| host := "toon.local"; port := 80;
                        resources := ["waterflow"; "gasused"; "waterflow"] |} =
    [VStr "waterflow"; VStr "gasused"; VStr "waterflow"].
Proof.
  split; [|split; [|split]].
  - apply (proj1 (accepted_resources accept_text accept_natural reversed_order
                    host_only _ eq_refl)).
    reflexivity.
  - apply (proj1 (proj2 (accepted_resources accept_text accept_natural reversed_order
                           (with_resources VNone host_only) _ eq_refl))).
    reflexivity.
  - apply (proj1 (proj2 (proj2 (accepted_resources accept_text accept_natural
                                  reversed_order
                                  (with_resources (VStr "heat") host_only) _ eq_refl)))).
    reflexivity.
  - apply (proj2 (proj2 (proj2 (accepted_resources accept_text accept_natural
                                  reversed_order
                                  (with_resources
                                     (VList [VStr "waterflow"; VStr "gasused";
                                             VStr "waterflow"]) host_only)
                                  _ eq_refl)))).
    reflexivity.
Defined.

(** ** Requests over a run of updates *)

Lemma poll_data i now net p :
  data (poll i now net p).1 = data p ∨
  data (poll i now net p).1 = (ToonSmartMeterData.async_update now net (data p)).1.
Proof.
  unfold poll. destruct (entities p !! i) as [s|]; [|by left].
  right. unfold ToonSmartMeterSensor.async_update.
  destruct (ToonSmartMeterData.async_update now net (data p)) as [d [[]|e]]; cbn;
    [|reflexivity].
  by destruct (read (latest_data d) s).
Qed.

Lemma polls_cons i now net events p :
  (polls ((i, now, net) :: events) p).1 = (polls events (poll i now net p).1).1.
Proof.
  cbn [polls]. destruct (poll i now net p) as [p1 r]. cbn.
  by destruct (polls events p1).
Qed.

(** X11: over any run of scheduled updates the gateway client keeps its
    URL, every request it sends goes to that URL, and it sends at most one
    request per update. *)
Theorem requests_go_to_one_url events p :
  _url (data (polls events p).1) = _url (data p) ∧
  ∃ k, (k <= length events)%nat ∧
       requests (_session (data (polls events p).1)) =
         (replicate k (_url (data p)) ++ requests (_session (data p)))%list.
Proof.
  revert p. induction events as [|[[i now] net] events IH]; intros p.
  - split; [reflexivity|]. by exists 0%nat.
  - rewrite polls_cons.
    destruct (IH (poll i now net p).1) as (Hurl & k & Hk & Hreq).
    assert (_url (data (poll i now net p).1) = _url (data p) ∧
            (requests (_session (data (poll i now net p).1)) =
               requests (_session (data p)) ∨
             requests (_session (data (poll i now net p).1)) =
               _url (data p) :: requests (_session (data p)))) as [Hu Hr].
    { destruct (poll_data i now net p) as [-> | ->]; [by auto|].
      destruct (async_update_outcome now net (data p)) as (_ & _ & Hu & Hr).
      by split. }
    split; [by rewrite Hurl|].
    rewrite Hreq, Hu. destruct Hr as [-> | ->].
    + exists k. split; [cbn; lia|reflexivity].
    + exists (S k). split; [cbn; lia|].
      rewrite replicate_S_end, <- app_assoc. reflexivity.
Qed.

(** ** The throttle over a run of updates *)

Lemma async_update_after_run now net self t0 :
  _throttle self = Some t0 ->
  (ToonSmartMeterData.async_update now net self).1 = self ∨
  (MIN_TIME_BETWEEN_UPDATES <= now - t0 ∧
   _throttle (ToonSmartMeterData.async_update now net self).1 = Some now ∧
   requests (_session (ToonSmartMeterData.async_update now net self).1) =
     _url self :: requests (_session self)).
Proof.
  intros Ht.
  destruct (throttled MIN_TIME_BETWEEN_UPDATES (_throttle self) now) eqn:E.
  - left. by rewrite (async_update_throttled _ _ _ E).
  - right. rewrite (async_update_runs _ _ _ E).
    destruct (download_frame net (set_throttle now self)) as (-> & -> & _).
    rewrite Ht in E. cbn in E. apply Z.ltb_ge in E. by auto.
Qed.

(** X12: after a run of the gateway client's fetch at time [t0], every
    scheduled update that comes less than [MIN_TIME_BETWEEN_UPDATES] after
    [t0] leaves the gateway client as it is: it sends no request and all
    sensors read the one cached payload. *)
Theorem updates_inside_the_interval events p t0 :
  _throttle (data p) = Some t0 ->
  Forall (λ ev, ev.1.2 - t0 < MIN_TIME_BETWEEN_UPDATES) events ->
  data (polls events p).1 = data p.
Proof.
  intros Ht Hev. revert p Ht.
  induction Hev as [|[[i now] net] events Hnow _ IH]; intros p Ht; [reflexivity|].
  cbn in Hnow. rewrite polls_cons.
  assert (data (poll i now net p).1 = data p) as Hp.
  { destruct (poll_data i now net p) as [Hd|Hd]; [exact Hd|]. rewrite Hd.
    rewrite (async_update_throttled now net (data p)); [reflexivity|].
    rewrite Ht. cbn. by apply Z.ltb_lt. }
  rewrite IH; [exact Hp|]. by rewrite Hp.
Qed.

Lemma updates_inside_the_interval_witness :
  data (polls [(0%nat, timedelta 3, Return (Return nan_payload));
               (1%nat, timedelta 9, Raise ClientError)]
              {| data := toon_0; entities := [sensor "gasused"; sensor "gasusedcnt"] |}).1
    = toon_0.
Proof.
  apply (updates_inside_the_interval
           [(0%nat, timedelta 3, Return (Return nan_payload));
            (1%nat, timedelta 9, Raise ClientError)]
           {| data := toon_0; entities := [sensor "gasused"; sensor "gasusedcnt"] |} 0).
  - reflexivity.
  - repeat constructor.
Defined.

(** X13: the throttle bounds the request rate: over any run of scheduled
    updates that starts after a fetch at [t0] and ends by [tmax], the
    number of requests sent, times [MIN_TIME_BETWEEN_UPDATES], is at most
    [tmax - t0]. *)
Theorem request_rate_bound events p t0 tmax :
  _throttle (data p) = Some t0 ->
  t0 <= tmax ->
  Forall (λ ev, ev.1.2 <= tmax) events ->
  (Z.of_nat (length (requests (_session (data (polls events p).1)))) -
   Z.of_nat (length (requests (_session (data p))))) * MIN_TIME_BETWEEN_UPDATES
  <= tmax - t0.
Proof.
  intros Ht Hmax Hev. revert p t0 Ht Hmax.
  induction Hev as [|[[i now] net] events Hnow _ IH]; intros p t0 Ht Hmax.
  - cbn. lia.
  - cbn in Hnow. rewrite polls_cons.
    destruct (poll_data i now net p) as [Hd|Hd].
    + specialize (IH (poll i now net p).1 t0). rewrite Hd in IH.
      by apply IH.
    + destruct (async_update_after_run now net (data p) t0 Ht) as [Hs|(Hge & Hst & Hrq)].
      * specialize (IH (poll i now net p).1 t0). rewrite Hd, Hs in IH.
        by apply IH.
      * specialize (IH (poll i now net p).1 now). rewrite Hd in IH.
        specialize (IH Hst Hnow). rewrite Hrq in IH. cbn [length] in IH.
        unfold MIN_TIME_BETWEEN_UPDATES, timedelta in *. lia.
Qed.

Lemma request_rate_bound_witness :
  (Z.of_nat (length (requests (_session (data
     (polls [(0%nat, timedelta 9, Return (Return nan_payload));
             (0%nat, timedelta 12, Return (Return nan_payload))]
            {| data := toon_0; entities := [sensor "gasused"] |}).1)))) -
   Z.of_nat (length (requests (_session toon_0)))) * MIN_TIME_BETWEEN_UPDATES
  <= timedelta 12 - 0.
Proof.
  apply (request_rate_bound
           [(0%nat, timedelta 9, Return (Return nan_payload));
            (0%nat, timedelta 12, Return (Return nan_payload))]
           {| data := toon_0; entities := [sensor "gasused"] |} 0 (timedelta 12)).
  - reflexivity.
  - vm_compute. discriminate.
  - repeat constructor; vm_compute; discriminate.
Defined.
